(** * Ticker extraction and chart triggering of [updated_fin_agents.py]

    A shallow embedding of [find_ticker_in_response], [display_stock_chart]
    and of the interaction handled by [main], with the properties the
    specification states about them. *)

From Stdlib Require Import List NArith Bool Arith Lia String Ascii.
Import ListNotations.

Set Implicit Arguments.

(** ** Text

    A Python [str] is a sequence of Unicode code points; [len], slicing,
    [in] and [re] all work on code points. *)

Definition char := N.
Definition text := list char.

(** The code points of an ASCII literal. *)
Definition of_string (s : string) : text :=
  map N_of_ascii (list_ascii_of_string s).

Definition char_eqb (a b : char) : bool := N.eqb a b.

Fixpoint text_eqb (a b : text) : bool :=
  match a, b with
  | [], [] => true
  | x :: a', y :: b' => char_eqb x y && text_eqb a' b'
  | _, _ => false
  end.

(** [needle in haystack] on two strings. *)
Fixpoint starts_with (needle hay : text) : bool :=
  match needle, hay with
  | [], _ => true
  | _ :: _, [] => false
  | x :: n', y :: h' => char_eqb x y && starts_with n' h'
  end.

Fixpoint py_in (needle hay : text) : bool :=
  starts_with needle hay ||
  match hay with
  | [] => false
  | _ :: h' => py_in needle h'
  end.

(** [x in s] for a set of strings. *)
Definition set_mem (x : text) (s : list text) : bool :=
  existsb (text_eqb x) s.

(** ** The regular expressions the program uses *)

Module Re.

Section Engine.

(** [str.isalnum] of one code point, as the Unicode database of the
    interpreter gives it.  The program only fixes what happens in the ASCII
    range; above it the table is a parameter. *)
Variable unicode_isalnum : char -> bool.

Definition in_range (lo hi c : char) : bool := N.leb lo c && N.leb c hi.

Definition ascii_word (c : char) : bool :=
  in_range 65%N 90%N c || in_range 97%N 122%N c || in_range 48%N 57%N c
  || N.eqb c 95%N.

(** [\w] for a [str] pattern: alphanumeric or underscore. *)
Definition is_word (c : char) : bool :=
  if N.ltb c 128%N then ascii_word c else unicode_isalnum c.

(** A position next to the start or the end of the string has no character
    on that side, which counts as a non-word character. *)
Definition word_at (c : option char) : bool :=
  match c with
  | Some x => is_word x
  | None => false
  end.

Inductive regex : Type :=
| Boundary                          (* \b *)
| Range (lo hi : char)              (* [lo-hi] *)
| Cat (r1 r2 : regex)               (* r1 r2 *)
| Rep (r : regex) (lo hi : nat).    (* r{lo,hi}, greedy *)

(** The character before the position reached after matching [m]. *)
Definition last_of (prev : option char) (m : text) : option char :=
  match rev m with
  | [] => prev
  | c :: _ => Some c
  end.

Definition then_match (prev : option char)
    (next : option char -> text -> list (text * text))
    (first : text * text) : list (text * text) :=
  let '(m1, s1) := first in
  map (fun '(m2, s2) => (m1 ++ m2, s2)) (next (last_of prev m1) s1).

(** Greedy bounded repetition: one more iteration is tried before stopping. *)
Fixpoint rep_match (step : option char -> text -> list (text * text))
    (lo hi : nat) (prev : option char) (s : text) : list (text * text) :=
  match hi with
  | O => []
  | S hi' => flat_map (then_match prev (rep_match step (pred lo) hi')) (step prev s)
  end ++
  match lo with
  | O => [([], s)]
  | S _ => []
  end.

(** [re_match r prev s]: every way [r] matches at the position whose left
    neighbour is [prev] and where [s] is what remains of the string, as
    (matched text, remaining text), in the order in which the backtracking
    matcher tries them.  The head of the list is the match it reports. *)
Fixpoint re_match (r : regex) (prev : option char) (s : text)
    : list (text * text) :=
  match r with
  | Boundary =>
      if xorb (word_at prev) (word_at (hd_error s)) then [([], s)] else []
  | Range lo hi =>
      match s with
      | c :: s' => if in_range lo hi c then [([c], s')] else []
      | [] => []
      end
  | Cat r1 r2 => flat_map (then_match prev (re_match r2)) (re_match r1 prev s)
  | Rep r' lo hi => rep_match (re_match r') lo hi prev s
  end.

(** [re.findall]: scan left to right; at a position inside the previous
    match ([skip] characters of it remain) no match is attempted; elsewhere
    the match found there, if any, is reported and the scan resumes at its
    end (one character further after an empty match). *)
Fixpoint scan (r : regex) (skip : nat) (prev : option char) (s : text)
    : list text :=
  match s with
  | [] =>
      match skip, re_match r prev [] with
      | O, (m, _) :: _ => [m]
      | _, _ => []
      end
  | c :: s' =>
      match skip with
      | S k => scan r k (Some c) s'
      | O =>
          match re_match r prev s with
          | (m, _) :: _ => m :: scan r (pred (List.length m)) (Some c) s'
          | [] => scan r 0 (Some c) s'
          end
      end
  end.

Definition findall (r : regex) (s : text) : list text := scan r 0 None s.

End Engine.

End Re.

(** ** [find_ticker_in_response] *)

Section Extraction.

Variable unicode_isalnum : char -> bool.

(** r'\b([A-Z]{1,5})\b'.  The two assertions have no width, so the one group
    spans the whole match and [re.findall] returns the matched texts. *)
Definition ticker_pattern : Re.regex :=
  Re.Cat Re.Boundary (Re.Cat (Re.Rep (Re.Range 65%N 90%N) 1 5) Re.Boundary).

Definition common_non_tickers : list text :=
  [of_string "CEO"; of_string "CFO"; of_string "COO"; of_string "USA";
   of_string "ETF"; of_string "LLC"; of_string "INC"; of_string "API";
   of_string "NEWS"].

Definition has_financial_context (t : text) : bool :=
  py_in (of_string "---|---|") t
  || py_in (of_string "Recommendation Trend") t
  || py_in (of_string "Financial Data") t.

(** The [for ticker in potential_tickers] loop. *)
Fixpoint first_ticker (t : text) (potential_tickers : list text) : option text :=
  match potential_tickers with
  | [] => None
  | ticker :: rest =>
      if negb (set_mem ticker common_non_tickers) then
        if has_financial_context t then Some ticker
        else first_ticker t rest
      else first_ticker t rest
  end.

Definition find_ticker_in_response (t : text) : option text :=
  let potential_tickers := Re.findall unicode_isalnum ticker_pattern t in
  match potential_tickers with
  | [] => None
  | _ => first_ticker t potential_tickers
  end.

End Extraction.

(** ** What the specification calls a candidate *)

Section Candidates.

Variable unicode_isalnum : char -> bool.

Definition is_upper (c : char) : bool := Re.in_range 65%N 90%N c.

(** [m] is a run of one to five uppercase letters with a word boundary on
    each side: [prev] is the character before it, [rest] what follows. *)
Definition ticker_at (prev : option char) (m rest : text) : Prop :=
  1 <= List.length m <= 5
  /\ Forall (fun c => is_upper c = true) m
  /\ Re.word_at unicode_isalnum prev = false
  /\ Re.word_at unicode_isalnum (hd_error rest) = false.

(** [run] occurs in [t] as a candidate, after [pre] and before [post]. *)
Definition candidate_at (t pre run post : text) : Prop :=
  t = pre ++ run ++ post /\ ticker_at (Re.last_of None pre) run post.

Definition context_markers : list text :=
  [of_string "---|---|"; of_string "Recommendation Trend";
   of_string "Financial Data"].

Definition has_marker (t : text) : Prop :=
  exists mk a b, In mk context_markers /\ t = a ++ mk ++ b.

(** A candidate the exclusion set does not hold. *)
Definition qualifying_at (t pre run post : text) : Prop :=
  candidate_at t pre run post /\ ~ In run common_non_tickers.

(** The state of the scan while [k] characters of a reported match remain
    to be skipped: they are uppercase letters, and the character before them
    is a word character. *)
Definition inside_match (k : nat) (prev : option char) (s : text) : Prop :=
  Forall (fun c => is_upper c = true) (firstn k s)
  /\ (0 < k -> Re.word_at unicode_isalnum prev = true).

Definition not_excluded (c : text) : bool :=
  negb (set_mem c common_non_tickers).

(** The simpler function of the specification: test the three markers
    once; when one is present return the first extracted candidate that is
    not in the exclusion set, otherwise return nothing. *)
Definition extract_simple (t : text) : option text :=
  if py_in (of_string "---|---|") t
     || py_in (of_string "Recommendation Trend") t
     || py_in (of_string "Financial Data") t
  then find (fun c => negb (set_mem c common_non_tickers))
            (Re.findall unicode_isalnum ticker_pattern t)
  else None.

End Candidates.

(** ** The scenarios of the specification *)

Definition nl : text := [10%N].

Definition scenario1 : text :=
  of_string "AAPL price: $150" ++ nl ++ of_string "---|---|" ++ nl.

Definition scenario2 : text := of_string "The CEO of ETF Corp spoke today".

Definition scenario2_table : text :=
  of_string "The CEO of ETF Corp spoke today" ++ nl ++ of_string "---|---|".

Definition scenario3 : text := of_string "MSFT is a great company".

(** A table in which no code point above the ASCII range is alphanumeric. *)
Definition ascii_only : char -> bool := fun _ => false.

(** ** Exceptions, collaborators and effects *)

(** A raised exception: whether it is an instance of [Exception] (which is
    what [except Exception] tests; [KeyboardInterrupt], [SystemExit] and the
    like derive from [BaseException] only) and its [str]. *)
Record py_exn : Type := mkExn {
  exn_is_Exception : bool;
  exn_str : text }.

Inductive result (A : Type) : Type :=
| Returns (a : A)
| Raises (e : py_exn).

Arguments Returns {A} a.
Arguments Raises {A} e.

Inductive role : Type := User | Assistant.

(** One entry of [st.session_state.messages]. *)
Record message : Type := mkMessage {
  msg_role : role;
  msg_content : option text }.

(** What [agent_team.run] returns: an object with a [content] attribute
    (a string, or [None]), a string, or some other object, with its [str]. *)
Inductive response : Type :=
| RunResponse (content : option text)
| StrResponse (s : text)
| OtherResponse (str_of : text).

(** A Python dictionary with string keys. *)
Definition dict (V : Type) : Type := list (text * V).

Fixpoint dict_get {V : Type} (d : dict V) (k : text) : option V :=
  match d with
  | [] => None
  | (k', v) :: d' => if text_eqb k k' then Some v else dict_get d' k
  end.

(** [range(0, stop, step)] *)
Definition py_range (stop step : nat) : list nat :=
  map (fun j => j * step) (seq 0 ((stop + step - 1) / step)).

Definition warning_sign : text := [9888%N; 65039%N].
Definition cursor : text := [9612%N].

Section App.

Variable unicode_isalnum : char -> bool.

(** The types of the libraries the program draws charts with. *)
Variables Row DataFrame Figure : Type.

(** The collaborators: the agent team, the price tool, pandas and plotly. *)
Record services : Type := mkServices {
  agent_team_run : text -> result response;
  get_stock_price : list text -> result (option (dict (dict (list Row))));
  pd_DataFrame : list Row -> result DataFrame;
  df_columns : DataFrame -> list text;
  pd_to_datetime : DataFrame -> result DataFrame;
  df_dropna : DataFrame -> result DataFrame;
  df_empty : DataFrame -> bool;
  px_line : DataFrame -> text -> result Figure }.

(** What the program does that can be observed from outside. *)
Inductive event : Type :=
| ChatMessage (r : role)
| StMarkdown (body : text)
| StEmpty
| ContainerMarkdown (body : option text)
| Sleep
| Print (line : text)
| StWrite (body : text)
| StWarning (body : text)
| StError (body : text)
| StPlotlyChart (fig : Figure)
| AgentRun (prompt : text)
| GetStockPrice (tickers : list text).

(** The session's chat history (oldest first), the events so far (newest
    first) and the two variables [main] assigns in its [try]. *)
Record state : Type := mkState {
  session_messages : list message;
  trace : list event;
  full_response_content : option text;
  potential_ticker_for_chart : option text }.

Definition M (A : Type) : Type := state -> result A * state.

Definition ret {A : Type} (a : A) : M A := fun st => (Returns a, st).

Definition bind {A B : Type} (m : M A) (k : A -> M B) : M B :=
  fun st =>
    match m st with
    | (Returns a, st') => k a st'
    | (Raises e, st') => (Raises e, st')
    end.

Definition raise {A : Type} (e : py_exn) : M A := fun st => (Raises e, st).

(** [try: body  except Exception as e: handler e] *)
Definition try_except_Exception (body : M unit) (handler : py_exn -> M unit)
    : M unit :=
  fun st =>
    match body st with
    | (Returns a, st') => (Returns a, st')
    | (Raises e, st') =>
        if exn_is_Exception e then handler e st' else (Raises e, st')
    end.

Definition emit (e : event) : M unit :=
  fun st =>
    (Returns tt,
     mkState (session_messages st) (e :: trace st)
             (full_response_content st) (potential_ticker_for_chart st)).

(** A call to a collaborator: it is recorded, and returns or raises. *)
Definition call {A : Type} (e : event) (r : result A) : M A :=
  bind (emit e) (fun _ st => (r, st)).

(** A library computation that returns or raises. *)
Definition lift {A : Type} (r : result A) : M A := fun st => (r, st).

Definition append_message (r : role) (content : option text) : M unit :=
  fun st =>
    (Returns tt,
     mkState (session_messages st ++ [mkMessage r content]) (trace st)
             (full_response_content st) (potential_ticker_for_chart st)).

Definition set_full_response_content (v : option text) : M unit :=
  fun st =>
    (Returns tt,
     mkState (session_messages st) (trace st) v (potential_ticker_for_chart st)).

Definition set_potential_ticker_for_chart (v : option text) : M unit :=
  fun st =>
    (Returns tt,
     mkState (session_messages st) (trace st) (full_response_content st) v).

Definition get_full_response_content : M (option text) :=
  fun st => (Returns (full_response_content st), st).

Definition get_potential_ticker_for_chart : M (option text) :=
  fun st => (Returns (potential_ticker_for_chart st), st).

Fixpoint for_each {A : Type} (l : list A) (body : A -> M unit) : M unit :=
  match l with
  | [] => ret tt
  | x :: l' => bind (body x) (fun _ => for_each l' body)
  end.

Declare Scope py_scope.
Delimit Scope py_scope with py.
Notation "x <- m ;; k" := (bind m (fun x => k))
  (at level 61, m at next level, right associativity) : py_scope.
Notation "m ;; k" := (bind m (fun _ => k))
  (at level 61, right associativity) : py_scope.
Local Open Scope py_scope.

Variable svc : services.

(** *** [display_stock_chart] *)

(** [stock_data and ticker in stock_data and stock_data[ticker].get('prices')],
    with the price rows when it holds. *)
Definition usable_prices (stock_data : option (dict (dict (list Row))))
    (ticker : text) : option (list Row) :=
  match stock_data with
  | None => None
  | Some d =>
      match dict_get d ticker with
      | None => None
      | Some entry =>
          match dict_get entry (of_string "prices") with
          | Some (r :: rows) => Some (r :: rows)
          | _ => None
          end
      end
  end.

Definition chart_body (ticker : text) : M unit :=
  stock_data <- call (GetStockPrice [ticker]) (get_stock_price svc [ticker]) ;;
  match usable_prices stock_data ticker with
  | Some prices =>
      df <- lift (pd_DataFrame svc prices) ;;
      if negb (set_mem (of_string "timestamp") (df_columns svc df))
         || negb (set_mem (of_string "close") (df_columns svc df))
      then
        emit (StWarning (of_string "Price data for " ++ ticker
                         ++ of_string " is missing expected columns."))
      else
        df <- lift (pd_to_datetime svc df) ;;
        df <- lift (df_dropna svc df) ;;
        if negb (df_empty svc df) then
          fig <- lift (px_line svc df
                         (of_string "Recent Stock Price Trend for " ++ ticker)) ;;
          emit (StPlotlyChart fig)
        else
          emit (StWarning (of_string "No valid price data points found for "
                           ++ ticker ++ of_string " to plot."))
  | None =>
      emit (StWarning
              (of_string "Could not retrieve sufficient stock price data for "
               ++ ticker ++ of_string " to plot a chart."))
  end.

Definition chart_error (ticker : text) (e : py_exn) : text :=
  warning_sign ++ of_string " Error displaying stock chart for " ++ ticker
  ++ of_string ": " ++ exn_str e.

Definition display_stock_chart (ticker : text) : M unit :=
  emit (StWrite (of_string "--- Generating Chart for " ++ ticker
                 ++ of_string " ---")) ;;
  try_except_Exception (chart_body ticker)
    (fun e => emit (StError (chart_error ticker e))).

(** *** The interaction of [main] for one prompt *)

(** [find_ticker_in_response] with the line it prints. *)
Definition find_ticker_call (t : text) : M (option text) :=
  match find_ticker_in_response unicode_isalnum t with
  | Some ticker =>
      emit (Print (of_string "--- Ticker Found in Financial Context: "
                   ++ ticker ++ of_string " ---")) ;;
      ret (Some ticker)
  | None => ret None
  end.

Definition response_content (r : response) : option text :=
  match r with
  | RunResponse c => c
  | StrResponse s => Some s
  | OtherResponse s => Some s
  end.

Definition len_of_None : py_exn :=
  mkExn true (of_string "object of type 'NoneType' has no len()").

Definition stream (full : text) : M unit :=
  for_each (py_range (List.length full) 5)
    (fun i => emit (ContainerMarkdown (Some (firstn (i + 5) full ++ cursor))) ;;
              emit Sleep).

Definition agent_body (prompt : text) : M unit :=
  response <- call (AgentRun prompt) (agent_team_run svc prompt) ;;
  set_full_response_content (response_content response) ;;
  content <- get_full_response_content ;;
  match content with
  | None => raise len_of_None
  | Some full =>
      stream full ;;
      emit (ContainerMarkdown (Some full)) ;;
      ticker <- find_ticker_call full ;;
      set_potential_ticker_for_chart ticker
  end.

Definition sorry_message (e : py_exn) : text :=
  of_string "Sorry, I encountered an error processing your request: "
  ++ exn_str e.

Definition agent_failed (e : py_exn) : M unit :=
  emit (StError (warning_sign ++ of_string " An error occurred: " ++ exn_str e)) ;;
  set_full_response_content (Some (sorry_message e)) ;;
  content <- get_full_response_content ;;
  emit (ContainerMarkdown content).

(** The specification's [maybeTriggerChart]: the last statement of [main],
    [if potential_ticker_for_chart: display_stock_chart(...)]. *)
Definition maybeTriggerChart (candidate : option text) : M unit :=
  match candidate with
  | Some (c :: ticker) => display_stock_chart (c :: ticker)
  | _ => ret tt
  end.

(** The body of [if prompt := st.chat_input(...)]. *)
Definition handle_prompt (prompt : text) : M unit :=
  append_message User (Some prompt) ;;
  emit (ChatMessage User) ;;
  emit (StMarkdown prompt) ;;
  emit (ChatMessage Assistant) ;;
  emit StEmpty ;;
  set_full_response_content (Some []) ;;
  set_potential_ticker_for_chart None ;;
  try_except_Exception (agent_body prompt) agent_failed ;;
  content <- get_full_response_content ;;
  append_message Assistant content ;;
  candidate <- get_potential_ticker_for_chart ;;
  maybeTriggerChart candidate.

(** The state after further events, given newest first. *)
Definition log_events (evs : list event) (st : state) : state :=
  mkState (session_messages st) (evs ++ trace st)
          (full_response_content st) (potential_ticker_for_chart st).

(** The tickers the price tool was asked for, newest first. *)
Fixpoint chart_calls (tr : list event) : list (list text) :=
  match tr with
  | [] => []
  | GetStockPrice tickers :: tr' => tickers :: chart_calls tr'
  | _ :: tr' => chart_calls tr'
  end.

End App.

(** *** Concrete collaborators *)

(** Collaborators whose agent and price tool behave as given, with trivial
    frames and figures. *)
Definition simple_services (agent : text -> result response)
    (prices : list text -> result (option (dict (dict (list unit)))))
    : services unit unit unit :=
  mkServices agent prices (fun _ => Returns tt) (fun _ => [])
             (fun df => Returns df) (fun df => Returns df) (fun _ => true)
             (fun _ _ => Returns tt).

Definition initial_state : state unit := mkState [] [] None None.

(** [KeyboardInterrupt()], which is not an [Exception]. *)
Definition keyboard_interrupt : py_exn := mkExn false [].

Definition attribute_error : py_exn :=
  mkExn true
    (of_string "'YFinanceTools' object has no attribute 'get_stock_price'").

Definition quota_error : py_exn :=
  mkExn true (of_string "429 RESOURCE_EXHAUSTED").

(** The agent answers with the text of scenario 1; the price tool fails. *)
Definition failing_chart_services : services unit unit unit :=
  simple_services (fun _ => Returns (RunResponse (Some scenario1)))
                  (fun _ => Raises attribute_error).

(** The same agent; the price tool is interrupted. *)
Definition interrupted_chart_services : services unit unit unit :=
  simple_services (fun _ => Returns (RunResponse (Some scenario1)))
                  (fun _ => Raises keyboard_interrupt).

(** The agent answers with the text of scenario 3, which has no ticker to
    chart. *)
Definition plain_answer_services : services unit unit unit :=
  simple_services (fun _ => Returns (RunResponse (Some scenario3)))
                  (fun _ => Returns None).

Definition failing_agent_services : services unit unit unit :=
  simple_services (fun _ => Raises quota_error) (fun _ => Returns None).

Definition interrupted_agent_services : services unit unit unit :=
  simple_services (fun _ => Raises keyboard_interrupt) (fun _ => Returns None).

Definition prompt1 : text := of_string "AAPL financials".

(** *** Observations on the events *)

Section Observations.

Variable Figure : Type.

(** What the chart step shows the user: a chart, a warning or an error. *)
Definition is_feedback (e : event Figure) : bool :=
  match e with
  | StPlotlyChart _ | StWarning _ _ | StError _ _ => true
  | _ => false
  end.

(** What the response placeholder shows: the body of its newest
    [markdown] call. *)
Fixpoint last_shown (tr : list (event Figure)) : option (option text) :=
  match tr with
  | [] => None
  | ContainerMarkdown _ body :: _ => Some body
  | _ :: tr' => last_shown tr'
  end.

(** The bodies the response placeholder was given, newest first. *)
Fixpoint shown (tr : list (event Figure)) : list (option text) :=
  match tr with
  | [] => []
  | ContainerMarkdown _ body :: tr' => body :: shown tr'
  | _ :: tr' => shown tr'
  end.

Definition chart_header (ticker : text) : event Figure :=
  StWrite Figure (of_string "--- Generating Chart for " ++ ticker
                  ++ of_string " ---").

(** The events of the streaming loop of [main], newest first. *)
Definition stream_events (full : text) : list (event Figure) :=
  rev (flat_map
         (fun i => [ContainerMarkdown Figure (Some (firstn (i + 5) full ++ cursor));
                    Sleep Figure])
         (py_range (List.length full) 5)).

(** The events of an interaction before the agent is called, newest first. *)
Definition prompt_events (prompt : text) : list (event Figure) :=
  [StEmpty Figure; ChatMessage Figure Assistant; StMarkdown Figure prompt;
   ChatMessage Figure User].

End Observations.

(** Price data for AAPL with two rows. *)
Definition aapl_prices : option (dict (dict (list unit))) :=
  Some [(of_string "AAPL", [(of_string "prices", [tt; tt])])].

(** The agent answers with the text of scenario 1; the price tool returns
    rows, and the frame built from them has the two columns and is not
    empty. *)
Definition plotting_services : services unit unit unit :=
  mkServices (fun _ => Returns (RunResponse (Some scenario1)))
             (fun _ => Returns aapl_prices)
             (fun _ => Returns tt)
             (fun _ => [of_string "timestamp"; of_string "close"])
             (fun df => Returns df) (fun df => Returns df) (fun _ => false)
             (fun _ _ => Returns tt).

(** The same, with a frame that has no [close] column. *)
Definition no_close_services : services unit unit unit :=
  mkServices (fun _ => Returns (RunResponse (Some scenario1)))
             (fun _ => Returns aapl_prices)
             (fun _ => Returns tt)
             (fun _ => [of_string "timestamp"; of_string "open"])
             (fun df => Returns df) (fun df => Returns df) (fun _ => false)
             (fun _ _ => Returns tt).

Definition value_error : py_exn :=
  mkExn true (of_string "Value of 'x' is not the name of a column").

(** The same as [plotting_services], with a plotting call that fails. *)
Definition failing_plot_services : services unit unit unit :=
  mkServices (fun _ => Returns (RunResponse (Some scenario1)))
             (fun _ => Returns aapl_prices)
             (fun _ => Returns tt)
             (fun _ => [of_string "timestamp"; of_string "close"])
             (fun df => Returns df) (fun df => Returns df) (fun _ => false)
             (fun _ _ => Raises value_error).

(** The agent's response object has no content. *)
Definition none_content_services : services unit unit unit :=
  simple_services (fun _ => Returns (RunResponse None)) (fun _ => Returns None).

(** ** The page: one run of [main] *)

(** How a run of the script ends: it reaches its end, asks for a rerun
    ([st.rerun]), stops ([st.stop]), or is left by an exception. *)
Inductive flow (A : Type) : Type :=
| Next (a : A)
| Rerun
| Stopped
| Raised (e : py_exn).

Arguments Next {A} a.
Arguments Rerun {A}.
Arguments Stopped {A}.
Arguments Raised {A} e.

(** What the widgets and the cached constructors give in one run. *)
Record page_inputs : Type := mkInputs {
  about_clicked : bool;
  clear_clicked : bool;
  initialize_agents : result unit;
  get_yfinance_tool : result unit;
  chat_input : option text }.

Definition red_circle : text := [128308%N].

Section Page.

Variable unicode_isalnum : char -> bool.
Variables Row DataFrame Figure : Type.
Variable svc : services Row DataFrame Figure.

Inductive page_event : Type :=
| SetCustomCss
| SidebarTitle
| SidebarAbout
| PageTitle
| PageIntro
| Replayed (r : role) (content : option text)
| InitError (line : text)
| Interaction (e : event Figure).

(** [st.session_state]: the chat history, when the key exists, and what the
    run has shown so far, newest first. *)
Record page : Type := mkPage {
  stored_messages : option (list message);
  page_events : list page_event }.

Definition P (A : Type) : Type := page -> flow A * page.

Definition pret {A : Type} (a : A) : P A := fun p => (Next a, p).

Definition pbind {A B : Type} (m : P A) (k : A -> P B) : P B :=
  fun p =>
    match m p with
    | (Next a, p') => k a p'
    | (Rerun, p') => (Rerun, p')
    | (Stopped, p') => (Stopped, p')
    | (Raised e, p') => (Raised e, p')
    end.

Definition show (e : page_event) : P unit :=
  fun p => (Next tt, mkPage (stored_messages p) (e :: page_events p)).

Definition set_messages (m : list message) : P unit :=
  fun p => (Next tt, mkPage (Some m) (page_events p)).

Definition get_messages : P (option (list message)) :=
  fun p => (Next (stored_messages p), p).

Definition st_rerun : P unit := fun p => (Rerun, p).

Definition st_stop : P unit := fun p => (Stopped, p).

(** A cached constructor: it returns or raises. *)
Definition construct (r : result unit) : P unit :=
  fun p =>
    match r with
    | Returns _ => (Next tt, p)
    | Raises e => (Raised e, p)
    end.

(** [try: body  except Exception as e: handler e] *)
Definition ptry_except_Exception (body : P unit) (handler : py_exn -> P unit)
    : P unit :=
  fun p =>
    match body p with
    | (Raised e, p') =>
        if exn_is_Exception e then handler e p' else (Raised e, p')
    | other => other
    end.

Fixpoint pfor_each {A : Type} (l : list A) (body : A -> P unit) : P unit :=
  match l with
  | [] => pret tt
  | x :: l' => pbind (body x) (fun _ => pfor_each l' body)
  end.

(** The body of [if prompt := ...], on the history of the session. *)
Definition interact (prompt : text) : P unit :=
  fun p =>
    let history := match stored_messages p with Some m => m | None => [] end in
    let '(r, st') := handle_prompt unicode_isalnum svc prompt
                       (mkState history [] None None) in
    (match r with
     | Returns _ => Next tt
     | Raises e => Raised e
     end,
     mkPage (Some (session_messages st'))
            (map Interaction (trace st') ++ page_events p)).

Definition main (inp : page_inputs) : P unit :=
  pbind (show SetCustomCss) (fun _ =>
  pbind (show SidebarTitle) (fun _ =>
  pbind (if about_clicked inp then show SidebarAbout else pret tt) (fun _ =>
  pbind (if clear_clicked inp
         then pbind (set_messages []) (fun _ => st_rerun)
         else pret tt) (fun _ =>
  pbind (show PageTitle) (fun _ =>
  pbind (show PageIntro) (fun _ =>
  pbind get_messages (fun stored =>
  pbind (match stored with
         | None => set_messages []
         | Some _ => pret tt
         end) (fun _ =>
  pbind get_messages (fun stored =>
  pbind (pfor_each (match stored with Some m => m | None => [] end)
           (fun message => show (Replayed (msg_role message)
                                          (msg_content message)))) (fun _ =>
  pbind (ptry_except_Exception
           (pbind (construct (initialize_agents inp)) (fun _ =>
                   construct (get_yfinance_tool inp)))
           (fun e =>
              pbind (show (InitError
                             (red_circle
                              ++ of_string " Critical Error during initialization: "
                              ++ exn_str e))) (fun _ =>
              pbind (show (InitError
                             (of_string "Please check API keys and tool configurations.")))
                    (fun _ => st_stop)))) (fun _ =>
  match chat_input inp with
  | Some (c :: prompt) => interact (c :: prompt)
  | _ => pret tt
  end))))))))))).

(** The events of the interactions in a run, newest first. *)
Fixpoint interactions (evs : list page_event) : list (event Figure) :=
  match evs with
  | [] => []
  | Interaction e :: evs' => e :: interactions evs'
  | _ :: evs' => interactions evs'
  end.

(** The messages a run has replayed, newest first. *)
Fixpoint replayed (evs : list page_event) : list message :=
  match evs with
  | [] => []
  | Replayed r c :: evs' => mkMessage r c :: replayed evs'
  | _ :: evs' => replayed evs'
  end.

(** The chat history of the session, empty when none is stored yet. *)
Definition page_history (p : page) : list message :=
  match stored_messages p with
  | Some m => m
  | None => []
  end.

(** What a run shows before the history, newest first. *)
Definition top_events (inp : page_inputs) : list page_event :=
  (if about_clicked inp then [SidebarAbout] else [])
  ++ [SidebarTitle; SetCustomCss].

(** What the replay of a history shows, newest first. *)
Definition replay_events (l : list message) : list page_event :=
  rev (map (fun m => Replayed (msg_role m) (msg_content m)) l).

End Page.

Definition history1 : list message :=
  [mkMessage User (Some (of_string "hello"));
   mkMessage Assistant (Some (of_string "Hello! Ask me about a stock."))].

Definition page1 : page unit := mkPage (Some history1) [].

Definition fresh_page : page unit := mkPage None [].

Definition credentials_error : py_exn :=
  mkExn true (of_string "API key not valid").

(** ** [get_installed_package_versions] of [check_versions.py] *)

Module CheckVersions.

(** The classes the handlers of the function tell apart: the two they name,
    any other [Exception], and what is not an [Exception]. *)
Inductive exn_class : Type :=
| CalledProcessError
| FileNotFoundError
| OtherException
| NotException.

Record raised : Type := mkRaised {
  raised_class : exn_class;
  raised_str : text }.

Inductive outcome (A : Type) : Type :=
| Ok (a : A)
| Raise (e : raised).

Arguments Ok {A} a.
Arguments Raise {A} e.

(** [d[k] = v] on a dictionary: the value is replaced where the key is,
    or the pair is added at the end. *)
Fixpoint dict_set {V : Type} (d : dict V) (k : text) (v : V) : dict V :=
  match d with
  | [] => [(k, v)]
  | (k', v') :: d' =>
      if text_eqb k k' then (k', v) :: d' else (k', v') :: dict_set d' k v
  end.

Fixpoint take_while (f : char -> bool) (s : text) : text :=
  match s with
  | c :: s' => if f c then c :: take_while f s' else []
  | [] => []
  end.

(** The characters of [[a-zA-Z0-9_-]]. *)
Definition name_char (c : char) : bool :=
  Re.in_range 97%N 122%N c || Re.in_range 65%N 90%N c
  || Re.in_range 48%N 57%N c || N.eqb c 95%N || N.eqb c 45%N.

(** [re.match(r"([a-zA-Z0-9_-]+)", package)], with its group when it
    matches: the longest prefix made of these characters, if not empty. *)
Definition package_name_of (package : text) : option text :=
  match take_while name_char package with
  | [] => None
  | name => Some name
  end.

Section Script.

(** [str.isspace] of one code point above the ASCII range. *)
Variable unicode_isspace : char -> bool.

Definition ascii_space (c : char) : bool :=
  Re.in_range 9%N 13%N c || Re.in_range 28%N 31%N c || N.eqb c 32%N.

Definition is_space (c : char) : bool :=
  if N.ltb c 128%N then ascii_space c else unicode_isspace c.

Fixpoint lstrip (s : text) : text :=
  match s with
  | c :: s' => if is_space c then lstrip s' else s
  | [] => []
  end.

(** [s.strip()] *)
Definition strip (s : text) : text := rev (lstrip (rev (lstrip s))).

(** The match of [Version: (\S+)] at the start of [out], with its group. *)
Definition version_here (out : text) : option text :=
  if starts_with (of_string "Version: ") out then
    match take_while (fun c => negb (is_space c)) (skipn 9 out) with
    | [] => None
    | version => Some version
    end
  else None.

(** [re.search(r"Version: (\S+)", output)], with its group when found: the
    leftmost match. *)
Fixpoint version_search (output : text) : option text :=
  match output with
  | [] => None
  | _ :: output' =>
      match version_here output with
      | Some version => Some version
      | None => version_search output'
      end
  end.

(** [pip show <name>] run with [check=True]: its standard output, or what
    [subprocess.run] raises. *)
Variable pip_show : text -> outcome text.

(** [line.strip() and not line.startswith("#")] *)
Definition is_package_line (line : text) : bool :=
  match strip line with
  | [] => false
  | _ :: _ => negb (starts_with (of_string "#") line)
  end.

Definition packages_of (lines : list text) : list text :=
  map strip (filter is_package_line lines).

(** The [for package in packages] loop with the dictionary and the lines
    printed so far (oldest first); the result is what the function returns
    or raises. *)
Fixpoint check_packages (packages : list text) (installed_versions : dict text)
    (printed : list text) : outcome (dict text) * list text :=
  match packages with
  | [] => (Ok installed_versions, printed)
  | package :: rest =>
      match package_name_of package with
      | None =>
          check_packages rest installed_versions
            (printed
             ++ [of_string "Warning: Could not parse package name from line: "
                 ++ package])
      | Some package_name =>
          match pip_show package_name with
          | Ok output =>
              match version_search output with
              | Some version =>
                  check_packages rest
                    (dict_set installed_versions package_name version) printed
              | None =>
                  check_packages rest installed_versions
                    (printed
                     ++ [of_string "Warning: Could not find version for "
                         ++ package_name])
              end
          | Raise e =>
              match raised_class e with
              | CalledProcessError =>
                  check_packages rest installed_versions
                    (printed
                     ++ [of_string "Warning: Could not find package "
                         ++ package_name ++ of_string ": " ++ raised_str e])
              | FileNotFoundError =>
                  (Ok [],
                   printed
                   ++ [of_string "Error: pip command not found.  Is pip installed?"])
              | OtherException =>
                  (Ok [],
                   printed
                   ++ [of_string "An unexpected error occurred: " ++ raised_str e])
              | NotException => (Raise e, printed)
              end
          end
      end
  end.

(** The function, given what opening and reading the requirements file
    gives: its lines, or an exception. *)
Definition get_installed_package_versions (requirements_file : text)
    (file_lines : outcome (list text)) : outcome (dict text) * list text :=
  match file_lines with
  | Ok lines => check_packages (packages_of lines) [] []
  | Raise e =>
      match raised_class e with
      | FileNotFoundError =>
          (Ok [],
           [of_string "Error: requirements.txt file not found at "
            ++ requirements_file])
      | CalledProcessError | OtherException =>
          (Ok [],
           [of_string "An unexpected error occurred while processing the file: "
            ++ raised_str e])
      | NotException => (Raise e, [])
      end
  end.

End Script.

(** A [pip] that knows two packages. *)
Definition sample_pip (name : text) : outcome text :=
  if text_eqb name (of_string "agno") then
    Ok (of_string "Name: agno" ++ nl ++ of_string "Version: 1.2.6" ++ nl
        ++ of_string "Summary: agents" ++ nl)
  else if text_eqb name (of_string "streamlit") then
    Ok (of_string "Name: streamlit" ++ nl ++ of_string "Version: 1.44.0" ++ nl)
  else
    Raise (mkRaised CalledProcessError
             (of_string "Command '['pip', 'show', 'x']' returned non-zero exit status 1.")).

Definition no_pip (name : text) : outcome text :=
  if text_eqb name (of_string "agno") then
    Ok (of_string "Name: agno" ++ nl ++ of_string "Version: 1.2.6" ++ nl)
  else
    Raise (mkRaised FileNotFoundError
             (of_string "[Errno 2] No such file or directory: 'pip'")).

Definition sample_requirements : list text :=
  [of_string "# agents" ++ nl;
   of_string "agno==1.2.6" ++ nl;
   nl;
   of_string "  streamlit>=1.40" ++ nl;
   of_string "unknown-package" ++ nl].

End CheckVersions.

(** ** The interaction of [main] in [finance_agents.py] *)

Module FinanceAgents.

Section App.

Variables Row DataFrame Figure : Type.
Variable svc : services Row DataFrame Figure.

(** What [initialize_agents()] gives when it is called for this prompt. *)
Variable initialize_agents : result unit.

(** The statements of the [try]; [full_response] is the variable
    [full_response_content] of the state. *)
Definition agent_body (prompt : text) : M Figure unit :=
  bind (call (AgentRun Figure prompt) (agent_team_run svc prompt))
    (fun response =>
       match response_content response with
       | None => raise len_of_None
       | Some content =>
           bind (stream content) (fun _ =>
           bind (emit (ContainerMarkdown Figure (Some content))) (fun _ =>
           set_full_response_content (Some content)))
       end).

Definition error_message (e : py_exn) : text :=
  warning_sign ++ of_string " Error: " ++ exn_str e.

Definition agent_failed (e : py_exn) : M Figure unit :=
  bind (set_full_response_content (Some (error_message e))) (fun _ =>
  bind (@get_full_response_content Figure) (fun content =>
  emit (ContainerMarkdown Figure content))).

(** The body of [if prompt := st.chat_input(...)]. *)
Definition handle_prompt (prompt : text) : M Figure unit :=
  bind (append_message User (Some prompt)) (fun _ =>
  bind (emit (ChatMessage Figure User)) (fun _ =>
  bind (emit (StMarkdown Figure prompt)) (fun _ =>
  bind (lift initialize_agents) (fun _ =>
  bind (emit (ChatMessage Figure Assistant)) (fun _ =>
  bind (emit (StEmpty Figure)) (fun _ =>
  bind (set_full_response_content (Some [])) (fun _ =>
  bind (try_except_Exception (agent_body prompt) agent_failed) (fun _ =>
  bind (@get_full_response_content Figure) (fun content =>
  append_message Assistant content))))))))).

End App.

End FinanceAgents.

(** ** Strings: equality and containment *)

Lemma text_eqb_eq (a b : text) : text_eqb a b = true <-> a = b.
Proof.
  revert b; induction a as [|x a IH]; intros [|y b]; simpl; split;
    try congruence; try reflexivity.
  - intros H. apply andb_true_iff in H as [Hx Hab].
    apply N.eqb_eq in Hx. apply IH in Hab. congruence.
  - intros H. injection H as -> ->. apply andb_true_iff. split.
    + apply N.eqb_refl.
    + now apply IH.
Qed.

Lemma set_mem_In (x : text) (s : list text) : set_mem x s = true <-> In x s.
Proof.
  unfold set_mem. rewrite existsb_exists. split.
  - intros (y & Hy & E). apply text_eqb_eq in E. now subst.
  - intros H. exists x. split; [assumption | now apply text_eqb_eq].
Qed.

Lemma set_mem_not_In (x : text) (s : list text) :
  set_mem x s = false -> ~ In x s.
Proof.
  intros H Hin. apply set_mem_In in Hin. congruence.
Qed.

Lemma starts_with_app (n h : text) :
  starts_with n h = true <-> exists b, h = n ++ b.
Proof.
  revert h; induction n as [|x n IH]; intros h; simpl.
  - split; [intros _; now exists h | reflexivity].
  - destruct h as [|y h].
    + split; [discriminate | intros (b & Hb); discriminate].
    + rewrite andb_true_iff, IH. unfold char_eqb. rewrite N.eqb_eq. split.
      * intros (-> & b & ->). now exists b.
      * intros (b & Hb). injection Hb as -> ->. split; [reflexivity | now exists b].
Qed.

Lemma py_in_app (n h : text) :
  py_in n h = true <-> exists a b, h = a ++ n ++ b.
Proof.
  induction h as [|y h IH].
  - simpl. rewrite orb_false_r, starts_with_app. split.
    + intros (b & Hb). now exists [], b.
    + intros (a & b & Hab). destruct a as [|z a]; [now exists b | discriminate].
  - cbn [py_in]. rewrite orb_true_iff, starts_with_app, IH. split.
    + intros [(b & Hb) | (a & b & Hab)].
      * now exists [], b.
      * exists (y :: a), b. simpl. now rewrite Hab.
    + intros (a & b & Hab). destruct a as [|z a].
      * left. now exists b.
      * right. injection Hab as _ ->. now exists a, b.
Qed.

Lemma has_financial_context_marker (t : text) :
  has_financial_context t = true <-> has_marker t.
Proof.
  unfold has_financial_context, has_marker, context_markers.
  rewrite !orb_true_iff, !py_in_app. split.
  - intros [[(a & b & H) | (a & b & H)] | (a & b & H)]; eexists; exists a, b;
      (split; [|exact H]); simpl; auto.
  - intros (mk & a & b & Hin & H). simpl in Hin.
    destruct Hin as [<- | [<- | [<- | []]]]; eauto.
Qed.

(** ** The matches of the ticker pattern *)

Section PatternFacts.

Variable u : char -> bool.

Abbreviation word_at := (Re.word_at u).
Abbreviation re_match := (Re.re_match u).

Lemma upper_is_word (c : char) : is_upper c = true -> Re.is_word u c = true.
Proof.
  unfold is_upper, Re.is_word, Re.ascii_word, Re.in_range. intros H.
  apply andb_true_iff in H as [H1 H2]. apply N.leb_le in H1, H2.
  replace (N.ltb c 128) with true by (symmetry; apply N.ltb_lt; lia).
  replace (N.leb 65 c) with true by (symmetry; now apply N.leb_le).
  replace (N.leb c 90) with true by (symmetry; now apply N.leb_le).
  reflexivity.
Qed.

Lemma last_of_cons (prev : option char) (c : char) (p : text) :
  Re.last_of prev (c :: p) = Re.last_of (Some c) p.
Proof.
  unfold Re.last_of. simpl. destruct (rev p); reflexivity.
Qed.

Lemma last_of_upper (prev : option char) (m : text) :
  m <> [] -> Forall (fun c => is_upper c = true) m ->
  word_at (Re.last_of prev m) = true.
Proof.
  revert prev; induction m as [|c m IH]; intros prev Hne Hup; [congruence|].
  rewrite last_of_cons. inversion Hup; subst.
  destruct m as [|d m].
  - simpl. now apply upper_is_word.
  - apply IH; [discriminate | assumption].
Qed.

(** The repetition [[A-Z]{lo,hi}] offers exactly the prefixes made of
    [lo] to [hi] letters of the range. *)
Lemma rep_range_In (a b : char) (hi lo : nat) (prev : option char) (s m rest : text) :
  In (m, rest) (Re.rep_match (re_match (Re.Range a b)) lo hi prev s) <->
  s = m ++ rest /\ Forall (fun c => Re.in_range a b c = true) m
  /\ lo <= List.length m <= hi.
Proof.
  revert lo prev s m rest; induction hi as [|hi IH]; intros lo prev s m rest.
  - simpl. destruct lo; simpl.
    + split.
      * intros [E | []]. injection E as <- <-. repeat split; auto.
      * intros (-> & _ & Hl). destruct m; [now left | simpl in Hl; lia].
    + split; [intros [] | intros (_ & _ & Hl); lia].
  - cbn [Re.rep_match]. rewrite in_app_iff, in_flat_map. split.
    + intros [((m1, s1) & H1 & H2) | H].
      * simpl in H1. destruct s as [|c s']; [destruct H1|].
        destruct (Re.in_range a b c) eqn:Hc; [|destruct H1].
        destruct H1 as [E | []]. injection E as <- <-.
        unfold Re.then_match in H2. apply in_map_iff in H2 as ((m2, s2) & E & H2).
        injection E as <- <-. apply IH in H2 as (-> & Hf & Hl).
        repeat split; simpl; auto; lia.
      * destruct lo; [|destruct H]. destruct H as [E | []].
        injection E as <- <-. repeat split; simpl; auto; lia.
    + intros (-> & Hf & Hl). destruct m as [|c m].
      * right. destruct lo; [now left | simpl in Hl; lia].
      * left. inversion Hf; subst. exists ([c], m ++ rest). split.
        -- simpl. rewrite H1. now left.
        -- unfold Re.then_match. apply in_map_iff. exists (m, rest). split; [reflexivity|].
           apply IH. repeat split; auto; simpl in Hl; lia.
Qed.

(** The matches of the ticker pattern at a position are the candidates that
    start there. *)
Lemma ticker_match_In (prev : option char) (s m rest : text) :
  In (m, rest) (re_match ticker_pattern prev s) <->
  s = m ++ rest /\ ticker_at u prev m rest.
Proof.
  unfold ticker_pattern, ticker_at. cbn [Re.re_match].
  split.
  - intros H. apply in_flat_map in H as ((m0, s0) & H0 & H).
    destruct (xorb (word_at prev) (word_at (hd_error s))) eqn:Hb; [|destruct H0].
    destruct H0 as [E | []]. injection E as <- <-.
    unfold Re.then_match in H. apply in_map_iff in H as ((m1, s1) & E & H).
    simpl in E. injection E as <- <-.
    apply in_flat_map in H as ((m2, s2) & H2 & H).
    apply rep_range_In in H2 as (-> & Hf & Hl).
    unfold Re.then_match in H. apply in_map_iff in H as ((m3, s3) & E & H).
    injection E as <- <-. cbn [Re.re_match] in H.
    destruct (xorb _ _) eqn:Hb2 in H; [|destruct H].
    destruct H as [E | []]. injection E as <- <-.
    rewrite app_nil_r. assert (Hne : m2 <> []) by (destruct m2; [simpl in Hl; lia | discriminate]).
    change (Re.last_of prev []) with prev in Hb2.
    rewrite (last_of_upper prev Hne Hf) in Hb2.
    destruct m2 as [|c m2]; [congruence|]. inversion Hf; subst.
    simpl in Hb. rewrite (upper_is_word _ H1) in Hb.
    repeat split; auto; try lia.
    + now destruct (word_at prev).
    + now destruct (word_at (hd_error s2)).
  - intros (-> & Hl & Hf & Hp & Hn).
    assert (Hne : m <> []) by (destruct m; [simpl in Hl; lia | discriminate]).
    apply in_flat_map. exists ([], m ++ rest). split.
    + destruct m as [|c m]; [congruence|]. inversion Hf; subst. simpl.
      rewrite Hp, (upper_is_word _ H1). now left.
    + unfold Re.then_match. apply in_map_iff. exists (m, rest). split; [reflexivity|].
      apply in_flat_map. exists (m, rest). split.
      * apply rep_range_In. repeat split; auto; lia.
      * unfold Re.then_match. apply in_map_iff. exists ([], rest).
        split; [now rewrite app_nil_r|]. cbn [Re.re_match].
        change (Re.last_of prev []) with prev.
        rewrite (last_of_upper prev Hne Hf), Hn. now left.
Qed.

Lemma ticker_at_unique (prev : option char) (m rest m' rest' : text) :
  m ++ rest = m' ++ rest' ->
  ticker_at u prev m rest -> ticker_at u prev m' rest' ->
  m = m' /\ rest = rest'.
Proof.
  intros E (_ & Hf & _ & Hn) (_ & Hf' & _ & Hn').
  revert m' E Hf'; induction m as [|c m IH]; intros [|c' m'] E Hf'; simpl in E.
  - now split.
  - subst rest. inversion Hf'; subst. simpl in Hn.
    rewrite (upper_is_word _ H1) in Hn. discriminate.
  - subst rest'. inversion Hf; subst. simpl in Hn'.
    rewrite (upper_is_word _ H1) in Hn'. discriminate.
  - injection E as -> E. inversion Hf; inversion Hf'; subst.
    destruct (IH H2 m' E H6) as [-> ->]. now split.
Qed.

Lemma ticker_match_head (prev : option char) (s m rest : text) l :
  re_match ticker_pattern prev s = (m, rest) :: l ->
  s = m ++ rest /\ ticker_at u prev m rest.
Proof.
  intros E. apply ticker_match_In. rewrite E. apply in_eq.
Qed.

(** A candidate that starts at a position is the match reported there. *)
Lemma ticker_match_found (prev : option char) (m rest : text) :
  ticker_at u prev m rest ->
  exists l, re_match ticker_pattern prev (m ++ rest) = (m, rest) :: l.
Proof.
  intros H. assert (Hin : In (m, rest) (re_match ticker_pattern prev (m ++ rest)))
    by now apply ticker_match_In.
  destruct (re_match ticker_pattern prev (m ++ rest)) as [|[m0 r0] l] eqn:E;
    [destruct Hin|].
  apply ticker_match_head in E as [E0 H0].
  destruct (ticker_at_unique E0 H H0) as [-> ->]. now exists l.
Qed.

Lemma ticker_match_nil (prev : option char) :
  re_match ticker_pattern prev [] = [].
Proof.
  destruct (re_match ticker_pattern prev []) as [|[m r] l] eqn:E; [reflexivity|].
  apply ticker_match_head in E as [E (Hl & _)].
  destruct m; [simpl in Hl; lia | discriminate].
Qed.

(** *** The scan of [re.findall] *)

Abbreviation scan := (Re.scan u ticker_pattern).

(** Whatever the scan reports is a candidate of the text. *)
Lemma scan_sound (s : text) : forall k prev t,
  In t (scan k prev s) ->
  exists p rest, s = p ++ t ++ rest /\ ticker_at u (Re.last_of prev p) t rest.
Proof.
  induction s as [|c s IH]; intros k prev t H.
  - cbn [Re.scan] in H. destruct k; [rewrite ticker_match_nil in H|]; destruct H.
  - cbn [Re.scan] in H. destruct k as [|k].
    + destruct (re_match ticker_pattern prev (c :: s)) as [|[m r] l] eqn:E.
      * apply IH in H as (p & rest & -> & Ht).
        exists (c :: p), rest. rewrite last_of_cons. now split.
      * apply ticker_match_head in E as [E Hm]. destruct H as [<- | H].
        -- exists [], r. now split.
        -- apply IH in H as (p & rest & -> & Ht).
           exists (c :: p), rest. rewrite last_of_cons. now split.
    + apply IH in H as (p & rest & -> & Ht).
      exists (c :: p), rest. rewrite last_of_cons. now split.
Qed.

(** A candidate found in the tail of the text is one of the text, one
    character further. *)
Ltac earlier_candidate c H :=
  let p := fresh "p" in let rest := fresh "rest" in
  let Hlen := fresh "Hlen" in let Ep := fresh "Ep" in let Hp := fresh "Hp" in
  destruct H as (p & rest & Hlen & Ep & Hp);
  exists (c :: p), rest; rewrite last_of_cons;
  split; [simpl; lia | split; [simpl; now rewrite Ep | exact Hp]].

(** The scan reaches every candidate, and what it reports before one are
    candidates that start before it. *)
Lemma scan_reaches (pre : text) : forall k prev run post,
  ticker_at u (Re.last_of prev pre) run post ->
  inside_match u k prev (pre ++ run ++ post) ->
  exists l1 l2,
    scan k prev (pre ++ run ++ post) = l1 ++ run :: l2
    /\ forall t, In t l1 ->
         exists p rest, List.length p < List.length pre
           /\ pre ++ run ++ post = p ++ t ++ rest
           /\ ticker_at u (Re.last_of prev p) t rest.
Proof.
  induction pre as [|c pre IH]; intros k prev run post Hrun [Hup Hprev].
  - change (Re.last_of prev []) with prev in Hrun.
    destruct k as [|k].
    2:{ destruct Hrun as (_ & _ & Hp & _). rewrite Hprev in Hp by lia. discriminate. }
    destruct (ticker_match_found Hrun) as [l E].
    assert (Hne : run <> []).
    { destruct Hrun as (Hl & _). destruct run; [simpl in Hl; lia | discriminate]. }
    destruct run as [|d run]; [congruence|].
    simpl app in *. cbn [Re.scan]. rewrite E.
    exists [], (scan (pred (List.length (d :: run))) (Some d) (run ++ post)).
    split; [reflexivity | intros t []].
  - rewrite last_of_cons in Hrun. simpl app. cbn [Re.scan].
    destruct k as [|k].
    + destruct (re_match ticker_pattern prev (c :: pre ++ run ++ post))
        as [|[m r] l] eqn:E.
      * destruct (IH 0 (Some c) run post Hrun) as (l1 & l2 & E1 & H1).
        { split; [constructor | lia]. }
        exists l1, l2. split; [assumption|]. intros t Ht.
        earlier_candidate c (H1 t Ht).
      * apply ticker_match_head in E as [E Hm].
        destruct m as [|d m]; [destruct Hm as (Hl & _); simpl in Hl; lia|].
        simpl in E. injection E as <- E.
        assert (Hc : is_upper c = true).
        { destruct Hm as (_ & Hf & _). now inversion Hf. }
        destruct (IH (List.length m) (Some c) run post Hrun) as (l1 & l2 & E1 & H1).
        { split.
          - rewrite E, firstn_app, firstn_all, Nat.sub_diag. simpl. rewrite app_nil_r.
            destruct Hm as (_ & Hf & _). now inversion Hf.
          - intros _. simpl. now apply upper_is_word. }
        exists ((c :: m) :: l1), l2. split; [simpl; now rewrite E1|].
        intros t [<- | Ht].
        -- exists [], r. split; [simpl; lia | split; [simpl; now rewrite E | exact Hm]].
        -- earlier_candidate c (H1 t Ht).
    + simpl in Hup. inversion Hup as [|? ? Hc Hup']; subst.
      destruct (IH k (Some c) run post Hrun) as (l1 & l2 & E1 & H1).
      { split; [assumption | intros _; simpl; now apply upper_is_word]. }
      exists l1, l2. split; [assumption|]. intros t Ht.
      earlier_candidate c (H1 t Ht).
Qed.

(** The scan reports the candidates in the order of the text: before a
    reported candidate come all the candidates that start before it. *)
Lemma scan_in_order (s : text) : forall k prev l1 t l2,
  inside_match u k prev s ->
  scan k prev s = l1 ++ t :: l2 ->
  exists p rest,
    s = p ++ t ++ rest /\ ticker_at u (Re.last_of prev p) t rest
    /\ forall p' t' rest',
         s = p' ++ t' ++ rest' -> ticker_at u (Re.last_of prev p') t' rest' ->
         List.length p' < List.length p -> In t' l1.
Proof.
  induction s as [|c s IH]; intros k prev l1 t l2 [Hup Hprev] E.
  - cbn [Re.scan] in E. rewrite ticker_match_nil in E.
    destruct k; destruct l1; discriminate.
  - cbn [Re.scan] in E. destruct k as [|k].
    + destruct (re_match ticker_pattern prev (c :: s)) as [|[m r] l] eqn:Em.
      * destruct (IH 0 (Some c) l1 t l2) as (p & rest & -> & Ht & Hbefore);
          [split; [constructor | lia] | assumption |].
        exists (c :: p), rest. rewrite last_of_cons.
        split; [reflexivity|]. split; [exact Ht|].
        intros [|c' p'] t' rest' E' Ht' Hlen.
        -- simpl in E'. assert (Hin : In (t', rest') (re_match ticker_pattern prev (c :: p ++ t ++ rest)))
             by (apply ticker_match_In; now split).
           rewrite Em in Hin. destruct Hin.
        -- simpl in E'. injection E' as <- E'. rewrite last_of_cons in Ht'.
           apply (Hbefore p' t' rest' E' Ht'). simpl in Hlen. lia.
      * apply ticker_match_head in Em as [Em Hm].
        destruct m as [|d m]; [destruct Hm as (Hl & _); simpl in Hl; lia|].
        simpl in Em. injection Em as <- Em.
        destruct l1 as [|t0 l1]; simpl in E; injection E as <- E.
        -- exists [], r. split; [simpl; now rewrite Em|]. split; [exact Hm|].
           simpl. intros; lia.
        -- assert (Hc : is_upper c = true).
           { destruct Hm as (_ & Hf & _). now inversion Hf. }
           destruct (IH (List.length m) (Some c) l1 t l2) as (p & rest & Ep & Ht & Hbefore);
             [|assumption|].
           { split.
             - rewrite Em, firstn_app, firstn_all, Nat.sub_diag. simpl. rewrite app_nil_r.
               destruct Hm as (_ & Hf & _). now inversion Hf.
             - intros _. simpl. now apply upper_is_word. }
           exists (c :: p), rest. rewrite last_of_cons.
           split; [simpl; now rewrite Ep|]. split; [exact Ht|].
           intros [|c' p'] t' rest' E' Ht' Hlen.
           ++ left. simpl in E'. change (Re.last_of prev []) with prev in Ht'.
              assert (E2 : (c :: m) ++ r = t' ++ rest') by (simpl; now rewrite <- Em).
              now destruct (ticker_at_unique E2 Hm Ht').
           ++ right. simpl in E'. injection E' as <- E'. rewrite last_of_cons in Ht'.
              apply (Hbefore p' t' rest' E' Ht'). simpl in Hlen. lia.
    + simpl in Hup. inversion Hup as [|? ? Hc Hup']; subst.
      destruct (IH k (Some c) l1 t l2) as (p & rest & -> & Ht & Hbefore);
        [split; [assumption | intros _; simpl; now apply upper_is_word] | assumption |].
      exists (c :: p), rest. rewrite last_of_cons.
        split; [reflexivity|]. split; [exact Ht|].
      intros [|c' p'] t' rest' E' Ht' Hlen.
      * change (Re.last_of prev []) with prev in Ht'.
        destruct Ht' as (_ & _ & Hp & _). rewrite Hprev in Hp by lia. discriminate.
      * simpl in E'. injection E' as <- E'. rewrite last_of_cons in Ht'.
        apply (Hbefore p' t' rest' E' Ht'). simpl in Hlen. lia.
Qed.

(** *** [re.findall] on the whole text *)

Abbreviation findall := (Re.findall u ticker_pattern).

Lemma inside_match_start (s : text) : inside_match u 0 None s.
Proof. split; [constructor | lia]. Qed.

Lemma findall_candidate (s t : text) :
  In t (findall s) -> exists pre post, candidate_at u s pre t post.
Proof.
  intros H. apply scan_sound in H as (p & rest & E & Ht).
  exists p, rest. now split.
Qed.

Lemma candidate_in_findall (s pre run post : text) :
  candidate_at u s pre run post -> In run (findall s).
Proof.
  intros [-> H].
  destruct (scan_reaches pre H (inside_match_start _)) as (l1 & l2 & E & _).
  unfold Re.findall. rewrite E. apply in_elt.
Qed.

Lemma findall_in_order (s : text) l1 t l2 :
  findall s = l1 ++ t :: l2 ->
  exists pre post,
    candidate_at u s pre t post
    /\ forall pre' t' post',
         candidate_at u s pre' t' post' ->
         List.length pre' < List.length pre -> In t' l1.
Proof.
  intros E.
  destruct (@scan_in_order s 0 None l1 t l2 (inside_match_start s) E)
    as (p & rest & Es & Ht & Hbefore).
  exists p, rest. split; [now split|].
  intros pre' t' post' [E' Ht'] Hlen. eapply Hbefore; eassumption.
Qed.

End PatternFacts.

(** ** [find_ticker_in_response] *)

Section LoopFacts.

Variable u : char -> bool.

Lemma find_ticker_unfold (t : text) :
  find_ticker_in_response u t = first_ticker t (Re.findall u ticker_pattern t).
Proof.
  unfold find_ticker_in_response.
  now destruct (Re.findall u ticker_pattern t).
Qed.

Lemma first_ticker_without_context (t : text) (l : list text) :
  has_financial_context t = false -> first_ticker t l = None.
Proof.
  intros H. induction l as [|c l IH]; simpl; [reflexivity|].
  rewrite H, IH. now destruct (negb _).
Qed.

Lemma first_ticker_with_context (t : text) (l : list text) :
  has_financial_context t = true -> first_ticker t l = find not_excluded l.
Proof.
  intros H. induction l as [|c l IH]; simpl; [reflexivity|].
  unfold not_excluded at 1. rewrite H, IH. reflexivity.
Qed.

Lemma find_split {A : Type} (f : A -> bool) (l : list A) (x : A) :
  find f l = Some x ->
  exists l1 l2, l = l1 ++ x :: l2 /\ f x = true
                /\ forall y, In y l1 -> f y = false.
Proof.
  induction l as [|a l IH]; simpl; [discriminate|].
  destruct (f a) eqn:Ha.
  - intros E. injection E as ->. exists [], l. repeat split; auto. intros y [].
  - intros E. destruct (IH E) as (l1 & l2 & -> & Hx & Hl1).
    exists (a :: l1), l2. repeat split; auto.
    intros y [<- | Hy]; auto.
Qed.

Lemma find_all_false {A : Type} (f : A -> bool) (l : list A) :
  (forall y, In y l -> f y = false) -> find f l = None.
Proof.
  induction l as [|a l IH]; simpl; intros H; [reflexivity|].
  rewrite (H a) by now left. apply IH. intros y Hy. apply H. now right.
Qed.

Lemma not_excluded_true (c : text) :
  not_excluded c = true <-> ~ In c common_non_tickers.
Proof.
  unfold not_excluded. rewrite negb_true_iff, <- set_mem_In.
  destruct (set_mem c common_non_tickers); split; congruence.
Qed.

Lemma not_excluded_false (c : text) :
  not_excluded c = false <-> In c common_non_tickers.
Proof.
  unfold not_excluded. rewrite negb_false_iff. apply set_mem_In.
Qed.

Lemma no_marker_no_context (t : text) :
  ~ has_marker t -> has_financial_context t = false.
Proof.
  intros H. destruct (has_financial_context t) eqn:E; [|reflexivity].
  apply has_financial_context_marker in E. contradiction.
Qed.

End LoopFacts.

(** ** The model on sample texts *)

Example findall_sample (u : char -> bool) :
  Re.findall u ticker_pattern
    (of_string "The CEO of ETF Corp spoke A today AB. ABCDEF GOOGL,X_Y Z1 I")
  = [of_string "CEO"; of_string "ETF"; of_string "A"; of_string "AB";
     of_string "GOOGL"; of_string "I"].
Proof. vm_compute. reflexivity. Qed.

(** A letter above the ASCII range before a run: whether the run is a
    candidate depends on the Unicode table. *)
Example findall_after_accented_letter :
  Re.findall ascii_only ticker_pattern (201%N :: of_string "AB") = [of_string "AB"]
  /\ Re.findall (fun c => N.eqb c 201) ticker_pattern (201%N :: of_string "AB") = [].
Proof. split; vm_compute; reflexivity. Qed.

Example scenario2_returns_nothing (u : char -> bool) :
  find_ticker_in_response u scenario2 = None.
Proof. vm_compute. reflexivity. Qed.

Example scenario3_returns_nothing (u : char -> bool) :
  find_ticker_in_response u scenario3 = None.
Proof. vm_compute. reflexivity. Qed.

(** ** The properties of the extraction *)

(** C5: on the text of scenario 1, a line with AAPL and its price followed
    by a table separator line, the extraction returns AAPL. *)
Theorem scenario1_returns_AAPL (u : char -> bool) :
  find_ticker_in_response u scenario1 = Some (of_string "AAPL").
Proof. vm_compute. reflexivity. Qed.

(** C9: the extraction equals the simpler function that tests the context
    markers once and then returns the first candidate outside the exclusion
    set, or nothing when the markers are absent. *)
Theorem find_ticker_is_extract_simple (u : char -> bool) (t : text) :
  find_ticker_in_response u t = extract_simple u t.
Proof.
  rewrite find_ticker_unfold. unfold extract_simple.
  change (py_in (of_string "---|---|") t
          || py_in (of_string "Recommendation Trend") t
          || py_in (of_string "Financial Data") t)
    with (has_financial_context t).
  destruct (has_financial_context t) eqn:E.
  - now apply first_ticker_with_context.
  - now apply first_ticker_without_context.
Qed.

(** C1: when the text holds a qualifying candidate and a context marker,
    the extraction returns a qualifying candidate before which every
    candidate of the text is excluded: the first qualifying one from the
    left. *)
Theorem first_qualifying_candidate_returned (u : char -> bool) (t : text) :
  (exists pre run post, qualifying_at u t pre run post) ->
  has_marker t ->
  exists pre run post,
    qualifying_at u t pre run post
    /\ (forall pre' run' post',
          candidate_at u t pre' run' post' ->
          List.length pre' < List.length pre -> In run' common_non_tickers)
    /\ find_ticker_in_response u t = Some run.
Proof.
  intros (pre0 & run0 & post0 & Hc0 & Hq0) Hm.
  apply has_financial_context_marker in Hm.
  rewrite find_ticker_unfold, (first_ticker_with_context t _ Hm).
  destruct (find not_excluded (Re.findall u ticker_pattern t)) as [run|] eqn:E.
  - destruct (find_split _ _ E) as (l1 & l2 & El & Hrun & Hl1).
    destruct (findall_in_order u t l1 run l2 El) as (pre & post & Hc & Hbefore).
    exists pre, run, post. split; [split; [exact Hc | now apply not_excluded_true]|].
    split; [|reflexivity].
    intros pre' run' post' Hc' Hlen. apply not_excluded_false, Hl1.
    eapply Hbefore; eassumption.
  - exfalso. apply not_excluded_true in Hq0.
    rewrite (find_none _ _ E run0) in Hq0; [discriminate|].
    eapply candidate_in_findall; eassumption.
Qed.

Lemma first_qualifying_candidate_returned_witness :
  (exists pre run post, qualifying_at ascii_only scenario1 pre run post)
  /\ has_marker scenario1
  /\ exists pre run post,
       qualifying_at ascii_only scenario1 pre run post
       /\ (forall pre' run' post',
             candidate_at ascii_only scenario1 pre' run' post' ->
             List.length pre' < List.length pre -> In run' common_non_tickers)
       /\ find_ticker_in_response ascii_only scenario1 = Some run.
Proof.
  assert (H1 : exists pre run post, qualifying_at ascii_only scenario1 pre run post).
  { exists [], (of_string "AAPL"),
      (of_string " price: $150" ++ nl ++ of_string "---|---|" ++ nl).
    split; [split; [reflexivity|] | apply set_mem_not_In; reflexivity].
    split; [simpl; lia|]. split; [repeat constructor | split; reflexivity]. }
  assert (H2 : has_marker scenario1).
  { exists (of_string "---|---|"), (of_string "AAPL price: $150" ++ nl), nl.
    split; [simpl; auto | reflexivity]. }
  exact (conj H1 (conj H2 (first_qualifying_candidate_returned H1 H2))).
Defined.

(** C2: a text with a qualifying candidate and none of the context markers
    yields nothing; no path returns a candidate without the markers. *)
Theorem no_marker_returns_nothing (u : char -> bool) (t : text) :
  (exists pre run post, qualifying_at u t pre run post) ->
  ~ has_marker t ->
  find_ticker_in_response u t = None.
Proof.
  intros _ Hm. rewrite find_ticker_unfold.
  apply first_ticker_without_context. now apply no_marker_no_context.
Qed.

Lemma no_marker_returns_nothing_witness :
  (exists pre run post, qualifying_at ascii_only scenario3 pre run post)
  /\ ~ has_marker scenario3
  /\ find_ticker_in_response ascii_only scenario3 = None.
Proof.
  assert (H1 : exists pre run post, qualifying_at ascii_only scenario3 pre run post).
  { exists [], (of_string "MSFT"), (of_string " is a great company").
    split; [split; [reflexivity|] | apply set_mem_not_In; reflexivity].
    split; [simpl; lia|]. split; [repeat constructor | split; reflexivity]. }
  assert (H2 : ~ has_marker scenario3).
  { intros H. apply has_financial_context_marker in H. discriminate H. }
  exact (conj H1 (conj H2 (no_marker_returns_nothing H1 H2))).
Defined.

(** C3: when every candidate of the text is in the exclusion set the
    extraction returns nothing, with or without a context marker. *)
Theorem all_excluded_returns_nothing (u : char -> bool) (t : text) :
  (forall pre run post,
     candidate_at u t pre run post -> In run common_non_tickers) ->
  find_ticker_in_response u t = None.
Proof.
  intros H. rewrite find_ticker_unfold.
  destruct (has_financial_context t) eqn:E.
  - rewrite (first_ticker_with_context t _ E). apply find_all_false.
    intros c Hc. apply not_excluded_false.
    apply findall_candidate in Hc as (pre & post & Hc). eapply H; eassumption.
  - now apply first_ticker_without_context.
Qed.

Lemma all_excluded_returns_nothing_witness :
  (forall pre run post,
     candidate_at ascii_only scenario2_table pre run post ->
     In run common_non_tickers)
  /\ has_marker scenario2_table
  /\ find_ticker_in_response ascii_only scenario2_table = None.
Proof.
  assert (H1 : forall pre run post,
             candidate_at ascii_only scenario2_table pre run post ->
             In run common_non_tickers).
  { intros pre run post H. apply candidate_in_findall in H.
    apply set_mem_In. vm_compute in H.
    destruct H as [<- | [<- | []]]; reflexivity. }
  split; [exact H1|]. split.
  - exists (of_string "---|---|"), (of_string "The CEO of ETF Corp spoke today" ++ nl), [].
    split; [simpl; auto | reflexivity].
  - exact (all_excluded_returns_nothing H1).
Defined.

(** C4: a text with no run of one to five uppercase letters between word
    boundaries, the empty text among them, yields nothing. *)
Theorem no_candidate_returns_nothing (u : char -> bool) (t : text) :
  (forall pre run post, ~ candidate_at u t pre run post) ->
  find_ticker_in_response u t = None.
Proof.
  intros H. unfold find_ticker_in_response.
  destruct (Re.findall u ticker_pattern t) as [|c l] eqn:E; [reflexivity|].
  exfalso. assert (Hc : In c (Re.findall u ticker_pattern t)) by (rewrite E; apply in_eq).
  apply findall_candidate in Hc as (pre & post & Hc). exact (H _ _ _ Hc).
Qed.

Lemma no_candidate_returns_nothing_witness :
  (forall pre run post, ~ candidate_at ascii_only [] pre run post)
  /\ find_ticker_in_response ascii_only [] = None.
Proof.
  assert (H1 : forall pre run post, ~ candidate_at ascii_only [] pre run post).
  { intros pre run post H. apply candidate_in_findall in H. exact H. }
  exact (conj H1 (no_candidate_returns_nothing H1)).
Defined.

(** C8: the extraction is defined on every text and never raises.  The
    pattern match always yields a list, possibly empty, of runs of one to
    five uppercase letters; the result is nothing, or one of these outside
    the exclusion set; the empty text gives nothing; and the call, with the
    line it prints, always returns. *)
Theorem find_ticker_total (u : char -> bool) (t : text) :
  Forall (fun c => 1 <= List.length c <= 5
                   /\ Forall (fun x => is_upper x = true) c)
         (Re.findall u ticker_pattern t)
  /\ (find_ticker_in_response u t = None
      \/ exists run, find_ticker_in_response u t = Some run
                     /\ In run (Re.findall u ticker_pattern t)
                     /\ ~ In run common_non_tickers)
  /\ find_ticker_in_response u [] = None
  /\ forall (Figure : Type) (st : state Figure),
       find_ticker_call u t st
       = (Returns (find_ticker_in_response u t),
          match find_ticker_in_response u t with
          | Some ticker =>
              log_events
                [Print Figure (of_string "--- Ticker Found in Financial Context: "
                               ++ ticker ++ of_string " ---")] st
          | None => st
          end).
Proof.
  split; [|split; [|split]].
  - apply Forall_forall. intros c Hc.
    apply findall_candidate in Hc as (pre & post & _ & Hl & Hf & _). now split.
  - rewrite find_ticker_unfold.
    destruct (has_financial_context t) eqn:E.
    + rewrite (first_ticker_with_context t _ E).
      destruct (find not_excluded (Re.findall u ticker_pattern t)) as [run|] eqn:Ef;
        [right | now left].
      exists run. split; [reflexivity|]. apply find_some in Ef as [Hin Hq].
      split; [assumption | now apply not_excluded_true].
    + left. now apply first_ticker_without_context.
  - reflexivity.
  - intros Figure st. unfold find_ticker_call.
    now destruct (find_ticker_in_response u t).
Qed.

(** ** The chart and the interaction *)

Section AppFacts.

Variable u : char -> bool.
Variables Row DataFrame Figure : Type.
Variable svc : services Row DataFrame Figure.

Lemma state_eta (st : state Figure) :
  mkState (session_messages st) (trace st) (full_response_content st)
          (potential_ticker_for_chart st) = st.
Proof. now destruct st. Qed.

(** A ticker the extraction returns is not the empty string. *)
Lemma found_ticker_not_empty (full ticker : text) :
  find_ticker_in_response u full = Some ticker -> ticker <> [].
Proof.
  intros H. rewrite find_ticker_unfold in H.
  assert (Hin : In ticker (Re.findall u ticker_pattern full)).
  { destruct (has_financial_context full) eqn:E.
    - rewrite (first_ticker_with_context full _ E) in H.
      now apply find_some in H.
    - rewrite (first_ticker_without_context full _ E) in H. discriminate. }
  apply findall_candidate in Hin as (pre & post & _ & Hl & _).
  destruct ticker; [simpl in Hl; lia | discriminate].
Qed.

(** The streaming loop only writes to the placeholder. *)
Lemma stream_loop_frame (full : text) (l : list nat) : forall st : state Figure,
  exists tr,
    for_each l
      (fun i =>
         bind (emit (ContainerMarkdown Figure (Some (firstn (i + 5) full ++ cursor))))
              (fun _ => emit (Sleep Figure))) st
    = (Returns tt,
       mkState (session_messages st) tr (full_response_content st)
               (potential_ticker_for_chart st))
    /\ chart_calls tr = chart_calls (trace st).
Proof.
  induction l as [|i l IH]; intros st.
  - exists (trace st). simpl. unfold ret. now rewrite state_eta.
  - cbn [for_each]. unfold bind at 1. unfold bind at 1. unfold emit at 1 2.
    cbn [session_messages trace full_response_content potential_ticker_for_chart].
    destruct (IH (mkState (session_messages st)
                    (Sleep Figure :: ContainerMarkdown Figure
                       (Some (firstn (i + 5) full ++ cursor)) :: trace st)
                    (full_response_content st) (potential_ticker_for_chart st)))
      as (tr & E & Hc).
    exists tr. split; [exact E | exact Hc].
Qed.

(** The interaction up to its last statement, when the agent answers
    with a text. *)
Lemma handle_prompt_answered (prompt : text) (resp : response) (full : text)
    (st : state Figure) :
  agent_team_run svc prompt = Returns resp ->
  response_content resp = Some full ->
  exists tr,
    handle_prompt u svc prompt st
    = maybeTriggerChart svc (find_ticker_in_response u full)
        (mkState (session_messages st
                  ++ [mkMessage User (Some prompt); mkMessage Assistant (Some full)])
                 tr (Some full) (find_ticker_in_response u full))
    /\ chart_calls tr = chart_calls (trace st).
Proof.
  intros Hrun Hcontent.
  unfold handle_prompt, agent_body, call, stream.
  unfold bind at 1 2 3 4 5 6 7 8. unfold try_except_Exception.
  unfold bind at 1 2 3 4.
  unfold append_message at 1, emit at 1 2 3 4 5,
    set_full_response_content at 1 2, set_potential_ticker_for_chart at 1,
    get_full_response_content at 1.
  cbn [session_messages trace full_response_content potential_ticker_for_chart].
  rewrite Hrun, Hcontent.
  unfold bind at 1.
  match goal with
  | |- context [for_each ?l ?body ?st0] =>
      destruct (stream_loop_frame full l st0) as (tr & E & Hc); rewrite E
  end.
  cbn [session_messages trace full_response_content potential_ticker_for_chart] in *.
  unfold bind at 1. unfold emit at 1.
  cbn [session_messages trace full_response_content potential_ticker_for_chart].
  unfold bind at 1. unfold find_ticker_call.
  destruct (find_ticker_in_response u full) as [ticker|] eqn:Et;
    unfold bind, emit, ret, set_potential_ticker_for_chart,
      get_full_response_content, append_message, get_potential_ticker_for_chart;
    cbn [session_messages trace full_response_content potential_ticker_for_chart];
    rewrite <- app_assoc; cbn [app];
    (eexists; split; [reflexivity|]); cbn [chart_calls]; exact Hc.
Qed.

(** Whatever the statements of the [try] raise, an [Exception] does not
    leave the chart step: it is reported with [st.error]. *)
Lemma display_stock_chart_reports (ticker : text) (e : py_exn)
    (st st1 : state Figure) :
  chart_body svc ticker
    (log_events [StWrite Figure (of_string "--- Generating Chart for " ++ ticker
                                 ++ of_string " ---")] st)
  = (Raises e, st1) ->
  exn_is_Exception e = true ->
  display_stock_chart svc ticker st
  = (Returns tt, log_events [StError Figure (chart_error ticker e)] st1).
Proof.
  intros Hbody Hexn. unfold display_stock_chart, bind. unfold emit at 1.
  unfold try_except_Exception. unfold log_events in Hbody. cbn [app] in Hbody.
  rewrite Hbody, Hexn. reflexivity.
Qed.

Lemma display_stock_chart_escapes (ticker : text) (e : py_exn)
    (st st' : state Figure) :
  display_stock_chart svc ticker st = (Raises e, st') ->
  exn_is_Exception e = false.
Proof.
  unfold display_stock_chart, bind. unfold emit at 1.
  unfold try_except_Exception.
  destruct (chart_body svc ticker _) as [[[]|e0] st1]; [discriminate|].
  destruct (exn_is_Exception e0) eqn:E0; [discriminate|].
  intros H. injection H as <- _. exact E0.
Qed.

(** Nor does an [Exception] leave the interaction. *)
Lemma handle_prompt_escapes (prompt : text) (e : py_exn) (st st' : state Figure) :
  handle_prompt u svc prompt st = (Raises e, st') ->
  exn_is_Exception e = false.
Proof.
  unfold handle_prompt. unfold bind at 1 2 3 4 5 6 7.
  unfold append_message at 1, emit at 1 2 3 4,
    set_full_response_content at 1, set_potential_ticker_for_chart at 1.
  cbn [session_messages trace full_response_content potential_ticker_for_chart].
  unfold bind at 1. unfold try_except_Exception.
  destruct (agent_body u svc prompt _) as [[[]|e0] st1].
  - unfold bind, get_full_response_content, append_message,
      get_potential_ticker_for_chart.
    cbn [session_messages trace full_response_content potential_ticker_for_chart].
    destruct (potential_ticker_for_chart st1) as [[|c ticker]|];
      cbn [maybeTriggerChart]; try discriminate.
    apply display_stock_chart_escapes.
  - destruct (exn_is_Exception e0) eqn:E0.
    + unfold agent_failed, bind, emit, set_full_response_content,
        get_full_response_content, append_message, get_potential_ticker_for_chart.
      cbn [session_messages trace full_response_content potential_ticker_for_chart].
      destruct (potential_ticker_for_chart st1) as [[|c ticker]|];
        cbn [maybeTriggerChart]; try discriminate.
      apply display_stock_chart_escapes.
    + intros H. injection H as <- _. exact E0.
Qed.

End AppFacts.

(** The interaction when the agent run fails with an [Exception]: the
    final history, events (newest first) and variables. *)
Example agent_failure_run :
  handle_prompt ascii_only failing_agent_services prompt1 initial_state
  = (Returns tt,
     mkState
       [mkMessage User (Some prompt1);
        mkMessage Assistant (Some (sorry_message quota_error))]
       [ContainerMarkdown unit (Some (sorry_message quota_error));
        StError unit (warning_sign ++ of_string " An error occurred: "
                      ++ exn_str quota_error);
        AgentRun unit prompt1; StEmpty unit; ChatMessage unit Assistant;
        StMarkdown unit prompt1; ChatMessage unit User]
       (Some (sorry_message quota_error)) None).
Proof. vm_compute. reflexivity. Qed.

(** C7: with no candidate the chart step does nothing, so in an interaction
    whose response yields no ticker the price tool is never called. *)
Theorem empty_candidate_no_chart (u : char -> bool)
    (Row DataFrame Figure : Type) (svc : services Row DataFrame Figure) :
  (forall st : state Figure, maybeTriggerChart svc None st = (Returns tt, st))
  /\ forall prompt resp full (st : state Figure),
       agent_team_run svc prompt = Returns resp ->
       response_content resp = Some full ->
       find_ticker_in_response u full = None ->
       exists st',
         handle_prompt u svc prompt st = (Returns tt, st')
         /\ potential_ticker_for_chart st' = None
         /\ chart_calls (trace st') = chart_calls (trace st).
Proof.
  split; [reflexivity|].
  intros prompt resp full st Hrun Hcontent Hnone.
  destruct (handle_prompt_answered u svc prompt st Hrun Hcontent) as (tr & E & Hc).
  rewrite Hnone in E. eexists. split; [exact E|]. split; [reflexivity | exact Hc].
Qed.

Lemma empty_candidate_no_chart_witness :
  agent_team_run plain_answer_services prompt1
    = Returns (RunResponse (Some scenario3))
  /\ find_ticker_in_response ascii_only scenario3 = None
  /\ exists st',
       handle_prompt ascii_only plain_answer_services prompt1 initial_state
         = (Returns tt, st')
       /\ potential_ticker_for_chart st' = None
       /\ chart_calls (trace st') = chart_calls (trace initial_state).
Proof.
  split; [reflexivity|]. split; [reflexivity|].
  exact (proj2 (empty_candidate_no_chart ascii_only plain_answer_services)
           prompt1 (RunResponse (Some scenario3)) scenario3 initial_state
           eq_refl eq_refl eq_refl).
Defined.

(** C10, as the code has it: when the agent run raises, the price tool is
    not called in that interaction and the ticker variable stays empty; when
    what it raised is an [Exception], the interaction ends normally with the
    error message recorded as the assistant's response; anything else
    propagates. *)
Theorem agent_failure_no_chart (u : char -> bool)
    (Row DataFrame Figure : Type) (svc : services Row DataFrame Figure)
    (prompt : text) (e : py_exn) (st : state Figure) :
  agent_team_run svc prompt = Raises e ->
  let out := handle_prompt u svc prompt st in
  chart_calls (trace (snd out)) = chart_calls (trace st)
  /\ potential_ticker_for_chart (snd out) = None
  /\ (exn_is_Exception e = true ->
      fst out = Returns tt
      /\ session_messages (snd out)
         = session_messages st
           ++ [mkMessage User (Some prompt);
               mkMessage Assistant (Some (sorry_message e))])
  /\ (exn_is_Exception e = false ->
      fst out = Raises e
      /\ session_messages (snd out)
         = session_messages st ++ [mkMessage User (Some prompt)]).
Proof.
  intros Hrun out. subst out.
  unfold handle_prompt, agent_body, call, agent_failed, try_except_Exception,
    bind, emit, append_message, set_full_response_content,
    set_potential_ticker_for_chart, get_full_response_content,
    get_potential_ticker_for_chart.
  cbn [session_messages trace full_response_content potential_ticker_for_chart].
  rewrite Hrun.
  destruct (exn_is_Exception e);
    cbn [fst snd session_messages trace full_response_content
         potential_ticker_for_chart maybeTriggerChart ret chart_calls];
    (split; [reflexivity|]); (split; [reflexivity|]);
    (split; [|intros; try (split; reflexivity); discriminate]).
  - intros _. split; [reflexivity|]. now rewrite <- app_assoc.
  - discriminate.
Qed.

Lemma agent_failure_no_chart_witness :
  agent_team_run failing_agent_services prompt1 = Raises quota_error
  /\ chart_calls (trace (snd (handle_prompt ascii_only failing_agent_services
                              prompt1 initial_state))) = []
  /\ session_messages (snd (handle_prompt ascii_only failing_agent_services
                              prompt1 initial_state))
     = [mkMessage User (Some prompt1);
        mkMessage Assistant (Some (sorry_message quota_error))].
Proof.
  split; [reflexivity|].
  pose proof (agent_failure_no_chart ascii_only failing_agent_services prompt1
                initial_state eq_refl) as H.
  destruct H as (H1 & _ & H3 & _). split; [exact H1|].
  exact (proj2 (H3 eq_refl)).
Defined.

(** Counterexample for C10 as stated for every exception: when the agent
    run is interrupted by [KeyboardInterrupt], which is not an [Exception],
    no assistant response is recorded. *)
Lemma agent_interrupt_not_recorded :
  ~ (forall e,
       agent_team_run interrupted_agent_services prompt1 = Raises e ->
       let out := handle_prompt ascii_only interrupted_agent_services prompt1
                    initial_state in
       chart_calls (trace (snd out)) = []
       /\ session_messages (snd out)
          = [mkMessage User (Some prompt1);
             mkMessage Assistant (Some (sorry_message e))]).
Proof.
  intros H. destruct (H keyboard_interrupt eq_refl) as [_ Hm].
  vm_compute in Hm. discriminate Hm.
Qed.

(** C6, as the code has it: an [Exception] the price tool raises is caught
    in the chart step and reported with [st.error]; the step returns
    normally, and so does the interaction that called it, with the response
    already recorded. *)
Theorem chart_exception_reported (u : char -> bool)
    (Row DataFrame Figure : Type) (svc : services Row DataFrame Figure)
    (ticker : text) (e : py_exn) :
  get_stock_price svc [ticker] = Raises e ->
  exn_is_Exception e = true ->
  (forall st : state Figure,
     display_stock_chart svc ticker st
     = (Returns tt,
        log_events
          [StError Figure (chart_error ticker e);
           GetStockPrice Figure [ticker];
           StWrite Figure (of_string "--- Generating Chart for " ++ ticker
                           ++ of_string " ---")] st))
  /\ forall prompt resp full (st : state Figure),
       agent_team_run svc prompt = Returns resp ->
       response_content resp = Some full ->
       find_ticker_in_response u full = Some ticker ->
       exists st',
         handle_prompt u svc prompt st = (Returns tt, st')
         /\ hd_error (trace st') = Some (StError Figure (chart_error ticker e))
         /\ session_messages st'
            = session_messages st
              ++ [mkMessage User (Some prompt); mkMessage Assistant (Some full)].
Proof.
  intros Hraise Hexn.
  assert (Hchart : forall st : state Figure,
             display_stock_chart svc ticker st
             = (Returns tt,
                log_events
                  [StError Figure (chart_error ticker e);
                   GetStockPrice Figure [ticker];
                   StWrite Figure (of_string "--- Generating Chart for " ++ ticker
                                   ++ of_string " ---")] st)).
  { intros st.
    unfold display_stock_chart, chart_body, call, try_except_Exception, bind, emit.
    cbn [session_messages trace full_response_content potential_ticker_for_chart].
    rewrite Hraise, Hexn. reflexivity. }
  split; [exact Hchart|].
  intros prompt resp full st Hrun Hcontent Hfound.
  destruct (handle_prompt_answered u svc prompt st Hrun Hcontent) as (tr & E & _).
  rewrite Hfound in E.
  assert (Hne := found_ticker_not_empty u full Hfound).
  destruct ticker as [|c ticker]; [congruence|].
  cbn [maybeTriggerChart] in E. rewrite Hchart in E.
  eexists. split; [exact E|]. split; reflexivity.
Qed.

Lemma chart_exception_reported_witness :
  get_stock_price failing_chart_services [of_string "AAPL"] = Raises attribute_error
  /\ exn_is_Exception attribute_error = true
  /\ exists st',
       handle_prompt ascii_only failing_chart_services prompt1 initial_state
       = (Returns tt, st')
       /\ hd_error (trace st')
          = Some (StError unit (chart_error (of_string "AAPL") attribute_error))
       /\ session_messages st'
          = [mkMessage User (Some prompt1);
             mkMessage Assistant (Some scenario1)].
Proof.
  split; [reflexivity|]. split; [reflexivity|].
  exact (proj2 (chart_exception_reported ascii_only failing_chart_services
                  (of_string "AAPL") eq_refl eq_refl)
           prompt1 (RunResponse (Some scenario1)) scenario1 initial_state
           eq_refl eq_refl eq_refl).
Defined.

(** Counterexample for C6 as stated for every exception: a
    [KeyboardInterrupt] in the price tool, which is not an [Exception],
    leaves the chart step and is not reported. *)
Lemma chart_interrupt_escapes :
  ~ (forall e,
       get_stock_price interrupted_chart_services [of_string "AAPL"] = Raises e ->
       exists st',
         display_stock_chart interrupted_chart_services (of_string "AAPL")
           initial_state = (Returns tt, st')
         /\ hd_error (trace st')
            = Some (StError unit (chart_error (of_string "AAPL") e))).
Proof.
  intros H. destruct (H keyboard_interrupt eq_refl) as (st' & E & _).
  vm_compute in E. discriminate E.
Qed.

(** ** Further properties of the extraction *)

(** X1: [re.findall] with the ticker pattern reports exactly the runs of
    one to five uppercase letters that have a word boundary on each side. *)
Theorem findall_reports_exactly_candidates (u : char -> bool) (t run : text) :
  In run (Re.findall u ticker_pattern t)
  <-> exists pre post, candidate_at u t pre run post.
Proof.
  split.
  - apply findall_candidate.
  - intros (pre & post & H). eapply candidate_in_findall; eassumption.
Qed.

(** X2: a ticker is returned only from a text that holds a context marker,
    and it is a candidate of the text outside the exclusion set before which
    every candidate is excluded. *)
Theorem found_ticker_is_first_qualifying (u : char -> bool) (t run : text) :
  find_ticker_in_response u t = Some run ->
  has_marker t
  /\ exists pre post,
       qualifying_at u t pre run post
       /\ forall pre' run' post',
            candidate_at u t pre' run' post' ->
            List.length pre' < List.length pre -> In run' common_non_tickers.
Proof.
  intros H. rewrite find_ticker_unfold in H.
  destruct (has_financial_context t) eqn:E.
  - split; [now apply has_financial_context_marker|].
    rewrite (first_ticker_with_context t _ E) in H.
    destruct (find_split _ _ H) as (l1 & l2 & El & Hrun & Hl1).
    destruct (findall_in_order u t l1 run l2 El) as (pre & post & Hc & Hbefore).
    exists pre, post. split; [split; [exact Hc | now apply not_excluded_true]|].
    intros pre' run' post' Hc' Hlen. apply not_excluded_false, Hl1.
    eapply Hbefore; eassumption.
  - rewrite (first_ticker_without_context t _ E) in H. discriminate.
Qed.

Lemma found_ticker_is_first_qualifying_witness :
  find_ticker_in_response ascii_only scenario1 = Some (of_string "AAPL")
  /\ has_marker scenario1
  /\ exists pre post,
       qualifying_at ascii_only scenario1 pre (of_string "AAPL") post
       /\ forall pre' run' post',
            candidate_at ascii_only scenario1 pre' run' post' ->
            List.length pre' < List.length pre -> In run' common_non_tickers.
Proof.
  split; [reflexivity|].
  exact (found_ticker_is_first_qualifying ascii_only scenario1 eq_refl).
Defined.

(** X3: nothing is returned exactly when the text holds no context marker
    or every candidate of the text is in the exclusion set. *)
Theorem nothing_found_iff (u : char -> bool) (t : text) :
  find_ticker_in_response u t = None
  <-> (~ has_marker t
       \/ forall pre run post,
            candidate_at u t pre run post -> In run common_non_tickers).
Proof.
  rewrite find_ticker_unfold. split.
  - intros H. destruct (has_financial_context t) eqn:E.
    + right. rewrite (first_ticker_with_context t _ E) in H.
      intros pre run post Hc. apply not_excluded_false.
      apply (find_none _ _ H). eapply candidate_in_findall; eassumption.
    + left. intros Hm. apply has_financial_context_marker in Hm. congruence.
  - intros [Hm | Hall].
    + apply first_ticker_without_context. now apply no_marker_no_context.
    + destruct (has_financial_context t) eqn:E.
      * rewrite (first_ticker_with_context t _ E). apply find_all_false.
        intros c Hc. apply not_excluded_false.
        apply findall_candidate in Hc as (pre & post & Hc). eapply Hall; eassumption.
      * now apply first_ticker_without_context.
Qed.

Section AsciiTexts.

Variables u u' : char -> bool.

Lemma is_word_ascii (c : char) :
  (c < 128)%N -> Re.is_word u c = Re.is_word u' c.
Proof.
  intros H. unfold Re.is_word.
  now replace (N.ltb c 128) with true by (symmetry; now apply N.ltb_lt).
Qed.

Lemma word_at_ascii (c : option char) :
  (forall x, c = Some x -> (x < 128)%N) ->
  Re.word_at u c = Re.word_at u' c.
Proof.
  destruct c as [x|]; simpl; [|reflexivity].
  intros H. apply is_word_ascii. now apply H.
Qed.

Lemma ticker_at_ascii (prev : option char) (m rest : text) :
  (forall x, prev = Some x -> (x < 128)%N) ->
  Forall (fun c => (c < 128)%N) rest ->
  ticker_at u prev m rest -> ticker_at u' prev m rest.
Proof.
  intros Hp Hr (Hl & Hf & Hb & Ha). repeat split; try assumption; try lia.
  - now rewrite <- (@word_at_ascii prev Hp).
  - rewrite <- word_at_ascii; [assumption|].
    intros x Hx. destruct rest as [|y rest]; [discriminate|].
    injection Hx as ->. now inversion Hr.
Qed.

End AsciiTexts.

Lemma scan_ascii (u u' : char -> bool) (s : text) : forall k prev,
  (forall x, prev = Some x -> (x < 128)%N) ->
  Forall (fun c => (c < 128)%N) s ->
  Re.scan u ticker_pattern k prev s = Re.scan u' ticker_pattern k prev s.
Proof.
  induction s as [|c s IH]; intros k prev Hp Hs.
  - cbn [Re.scan]. now rewrite !ticker_match_nil.
  - inversion Hs as [|? ? Hc Hs']; subst.
    assert (Hnext : forall x, Some c = Some x -> (x < 128)%N)
      by (intros x E; now injection E as <-).
    cbn [Re.scan]. destruct k as [|k]; [|now apply IH].
    destruct (Re.re_match u ticker_pattern prev (c :: s)) as [|[m r] l] eqn:E;
      destruct (Re.re_match u' ticker_pattern prev (c :: s)) as [|[m' r'] l'] eqn:E'.
    + now apply IH.
    + exfalso. apply ticker_match_head in E' as [Es Hm].
      assert (Hr : Forall (fun c => (c < 128)%N) r').
      { rewrite Es in Hs. now apply Forall_app in Hs. }
      destruct (ticker_match_found (@ticker_at_ascii u' u prev m' r' Hp Hr Hm)) as [l0 E0].
      rewrite <- Es, E in E0. discriminate.
    + exfalso. apply ticker_match_head in E as [Es Hm].
      assert (Hr : Forall (fun c => (c < 128)%N) r).
      { rewrite Es in Hs. now apply Forall_app in Hs. }
      destruct (ticker_match_found (@ticker_at_ascii u u' prev m r Hp Hr Hm)) as [l0 E0].
      rewrite <- Es, E' in E0. discriminate.
    + apply ticker_match_head in E as [Es Hm].
      assert (Hr : Forall (fun c => (c < 128)%N) r).
      { rewrite Es in Hs. now apply Forall_app in Hs. }
      destruct (ticker_match_found (@ticker_at_ascii u u' prev m r Hp Hr Hm)) as [l0 E0].
      rewrite <- Es, E' in E0. injection E0 as -> _ _.
      f_equal. now apply IH.
Qed.

(** X4: on a text of ASCII characters the result does not depend on which
    characters above the ASCII range the interpreter counts as
    alphanumeric. *)
Theorem ascii_text_any_unicode_table (u u' : char -> bool) (t : text) :
  Forall (fun c => (c < 128)%N) t ->
  find_ticker_in_response u t = find_ticker_in_response u' t.
Proof.
  intros H. rewrite !find_ticker_unfold.
  assert (E : Re.findall u ticker_pattern t = Re.findall u' ticker_pattern t)
    by (apply scan_ascii; [discriminate | assumption]).
  now rewrite E.
Qed.

Lemma ascii_text_any_unicode_table_witness :
  Forall (fun c => (c < 128)%N) scenario1
  /\ find_ticker_in_response ascii_only scenario1
     = find_ticker_in_response (fun c => N.eqb c 201) scenario1.
Proof.
  assert (H : Forall (fun c => (c < 128)%N) scenario1)
    by (repeat constructor).
  exact (conj H (ascii_text_any_unicode_table ascii_only (fun c => N.eqb c 201) H)).
Defined.

(** ** Further properties of the chart step *)

Section ChartFacts.

Variables Row DataFrame Figure : Type.
Variable svc : services Row DataFrame Figure.

(** The statements of the [try]: the price tool is called, and then either
    one chart, warning or nothing more is shown. *)
Lemma chart_body_shape (ticker : text) (st : state Figure) :
  (exists fb, is_feedback fb = true
     /\ (forall body, fb <> StError Figure body)
     /\ chart_body svc ticker st
        = (Returns tt, log_events [fb; GetStockPrice Figure [ticker]] st))
  \/ (exists e, chart_body svc ticker st
                = (Raises e, log_events [GetStockPrice Figure [ticker]] st)).
Proof.
  unfold chart_body, call, lift, bind, emit, log_events.
  cbn [session_messages trace full_response_content potential_ticker_for_chart app].
  destruct (get_stock_price svc [ticker]) as [data|e]; [|right; now exists e].
  destruct (usable_prices data ticker) as [prices|];
    [|left; eexists; split; [|split; [|reflexivity]]; [reflexivity | discriminate]].
  destruct (pd_DataFrame svc prices) as [df1|e]; [|right; now exists e].
  destruct (negb _ || negb _);
    [left; eexists; split; [|split; [|reflexivity]]; [reflexivity | discriminate]|].
  destruct (pd_to_datetime svc df1) as [df2|e]; [|right; now exists e].
  destruct (df_dropna svc df2) as [df3|e]; [|right; now exists e].
  destruct (negb (df_empty svc df3));
    [|left; eexists; split; [|split; [|reflexivity]]; [reflexivity | discriminate]].
  destruct (px_line svc df3 _) as [fig|e]; [|right; now exists e].
  left; eexists; split; [|split; [|reflexivity]]; [reflexivity | discriminate].
Qed.

Lemma display_stock_chart_shape (ticker : text) (st : state Figure) :
  (exists fb, is_feedback fb = true
     /\ display_stock_chart svc ticker st
        = (Returns tt,
           log_events [fb; GetStockPrice Figure [ticker]; chart_header Figure ticker] st))
  \/ (exists e, exn_is_Exception e = false
        /\ display_stock_chart svc ticker st
           = (Raises e,
              log_events [GetStockPrice Figure [ticker]; chart_header Figure ticker] st)).
Proof.
  assert (Hrun : forall r st1,
             chart_body svc ticker (log_events [chart_header Figure ticker] st)
             = (r, st1) ->
             display_stock_chart svc ticker st
             = match r with
               | Returns a => (Returns a, st1)
               | Raises e =>
                   if exn_is_Exception e
                   then (Returns tt,
                         log_events [StError Figure (chart_error ticker e)] st1)
                   else (Raises e, st1)
               end).
  { intros r st1 E. unfold display_stock_chart, bind. unfold emit at 1.
    unfold try_except_Exception. unfold log_events, chart_header in E.
    cbn [app] in E. rewrite E. now destruct r as [[]|e]. }
  destruct (chart_body_shape ticker (log_events [chart_header Figure ticker] st))
    as [(fb & Hfb & _ & E) | (e & E)]; rewrite (Hrun _ _ E).
  - left. exists fb. split; [exact Hfb | reflexivity].
  - destruct (exn_is_Exception e) eqn:He.
    + left. eexists. split; [|reflexivity]. reflexivity.
    + right. exists e. split; [exact He | reflexivity].
Qed.

End ChartFacts.

(** X5: whatever the collaborators do, the chart step calls the price tool
    exactly once, for the ticker it was given, and it changes neither the
    chat history nor the two variables of the interaction. *)
Theorem display_stock_chart_one_call (Row DataFrame Figure : Type)
    (svc : services Row DataFrame Figure) (ticker : text) (st : state Figure) :
  let st' := snd (display_stock_chart svc ticker st) in
  chart_calls (trace st') = [ticker] :: chart_calls (trace st)
  /\ session_messages st' = session_messages st
  /\ full_response_content st' = full_response_content st
  /\ potential_ticker_for_chart st' = potential_ticker_for_chart st.
Proof.
  destruct (display_stock_chart_shape svc ticker st)
    as [(fb & Hfb & E) | (e & _ & E)]; rewrite E; cbn.
  - destruct fb; try discriminate Hfb; repeat split; reflexivity.
  - repeat split; reflexivity.
Qed.

(** X6: when the chart step returns, the user has been shown exactly one
    chart, warning or error after the header line; when it raises, what it
    raises is not an [Exception] and nothing was shown after the header. *)
Theorem display_stock_chart_feedback (Row DataFrame Figure : Type)
    (svc : services Row DataFrame Figure) (ticker : text) (st : state Figure) :
  (forall st', display_stock_chart svc ticker st = (Returns tt, st') ->
     exists fb, is_feedback fb = true
       /\ trace st' = fb :: GetStockPrice Figure [ticker]
                         :: chart_header Figure ticker :: trace st)
  /\ (forall e st', display_stock_chart svc ticker st = (Raises e, st') ->
        exn_is_Exception e = false
        /\ trace st' = GetStockPrice Figure [ticker]
                       :: chart_header Figure ticker :: trace st).
Proof.
  destruct (display_stock_chart_shape svc ticker st)
    as [(fb & Hfb & E) | (e & He & E)]; rewrite E; split.
  - intros st' H. injection H as <-. exists fb. split; [exact Hfb | reflexivity].
  - intros e st' H. discriminate H.
  - intros st' H. discriminate H.
  - intros e' st' H. injection H as <- <-. split; [exact He | reflexivity].
Qed.

Lemma display_stock_chart_feedback_witness :
  exists fb, is_feedback fb = true
    /\ trace (snd (display_stock_chart plotting_services (of_string "AAPL")
                     initial_state))
       = [fb; GetStockPrice unit [of_string "AAPL"];
          chart_header unit (of_string "AAPL")].
Proof.
  exact (proj1 (display_stock_chart_feedback plotting_services (of_string "AAPL")
                  initial_state) _ eq_refl).
Defined.

Ltac run_chart :=
  unfold display_stock_chart, chart_body, call, lift, bind, emit,
    try_except_Exception, log_events, chart_header;
  cbn [session_messages trace full_response_content potential_ticker_for_chart
       app].

(** X7: the chart step ends by plotting a figure exactly when the price
    tool returns usable rows for the ticker, the frame built from them has
    the [timestamp] and [close] columns, the conversion of the dates and the
    removal of missing values succeed and leave rows, and plotly returns
    that figure. *)
Theorem chart_plotted_iff (Row DataFrame Figure : Type)
    (svc : services Row DataFrame Figure) (ticker : text) (st : state Figure)
    (fig : Figure) :
  hd_error (trace (snd (display_stock_chart svc ticker st)))
    = Some (StPlotlyChart fig)
  <-> exists data prices df1 df2 df3,
        get_stock_price svc [ticker] = Returns data
        /\ usable_prices data ticker = Some prices
        /\ pd_DataFrame svc prices = Returns df1
        /\ set_mem (of_string "timestamp") (df_columns svc df1) = true
        /\ set_mem (of_string "close") (df_columns svc df1) = true
        /\ pd_to_datetime svc df1 = Returns df2
        /\ df_dropna svc df2 = Returns df3
        /\ df_empty svc df3 = false
        /\ px_line svc df3 (of_string "Recent Stock Price Trend for " ++ ticker)
           = Returns fig.
Proof.
  run_chart. split.
  - destruct (get_stock_price svc [ticker]) as [data|e] eqn:E1;
      [|destruct (exn_is_Exception e); discriminate].
    destruct (usable_prices data ticker) as [prices|] eqn:E2; [|discriminate].
    destruct (pd_DataFrame svc prices) as [df1|e] eqn:E3;
      [|destruct (exn_is_Exception e); discriminate].
    destruct (set_mem (of_string "timestamp") (df_columns svc df1)) eqn:E4;
      [|discriminate].
    destruct (set_mem (of_string "close") (df_columns svc df1)) eqn:E5;
      [|discriminate].
    cbn [negb orb].
    destruct (pd_to_datetime svc df1) as [df2|e] eqn:E6;
      [|destruct (exn_is_Exception e); discriminate].
    destruct (df_dropna svc df2) as [df3|e] eqn:E7;
      [|destruct (exn_is_Exception e); discriminate].
    destruct (df_empty svc df3) eqn:E8; [discriminate|].
    cbn [negb].
    destruct (px_line svc df3 _) as [fig'|e] eqn:E9;
      [|destruct (exn_is_Exception e); discriminate].
    cbn. intros H. injection H as <-.
    exists data, prices, df1, df2, df3. repeat split; assumption.
  - intros (data & prices & df1 & df2 & df3 & E1 & E2 & E3 & E4 & E5 & E6 & E7
            & E8 & E9).
    rewrite E1, E2, E3, E4, E5. cbn [negb orb]. rewrite E6, E7, E8. cbn [negb].
    rewrite E9. reflexivity.
Qed.

(** X8: when the price tool returns nothing, or data without the ticker, or
    an entry without prices or with an empty price list, the chart step warns
    that it could not retrieve the data and returns; no frame is built. *)
Theorem unusable_prices_warn (Row DataFrame Figure : Type)
    (svc : services Row DataFrame Figure) (ticker : text) (st : state Figure)
    (data : option (dict (dict (list Row)))) :
  get_stock_price svc [ticker] = Returns data ->
  (data = None
   \/ exists d, data = Some d
        /\ (dict_get d ticker = None
            \/ exists entry, dict_get d ticker = Some entry
                 /\ (dict_get entry (of_string "prices") = None
                     \/ dict_get entry (of_string "prices") = Some []))) ->
  display_stock_chart svc ticker st
  = (Returns tt,
     log_events
       [StWarning Figure
          (of_string "Could not retrieve sufficient stock price data for "
           ++ ticker ++ of_string " to plot a chart.");
        GetStockPrice Figure [ticker]; chart_header Figure ticker] st).
Proof.
  intros E Hdata.
  assert (Hu : usable_prices data ticker = None).
  { unfold usable_prices.
    destruct Hdata as [-> | (d & -> & [-> | (entry & -> & [-> | ->])])];
      reflexivity. }
  run_chart. rewrite E, Hu. reflexivity.
Qed.

Lemma unusable_prices_warn_witness :
  display_stock_chart plain_answer_services (of_string "AAPL") initial_state
  = (Returns tt,
     log_events
       [StWarning unit
          (of_string "Could not retrieve sufficient stock price data for "
           ++ of_string "AAPL" ++ of_string " to plot a chart.");
        GetStockPrice unit [of_string "AAPL"];
        chart_header unit (of_string "AAPL")] initial_state).
Proof.
  exact (unusable_prices_warn plain_answer_services (of_string "AAPL")
           initial_state eq_refl (or_introl eq_refl)).
Defined.

(** X9: when the frame built from the prices lacks the [timestamp] or the
    [close] column, the chart step warns about the missing columns and
    returns, whatever the later steps would have done. *)
Theorem missing_columns_warn (Row DataFrame Figure : Type)
    (svc : services Row DataFrame Figure) (ticker : text) (st : state Figure)
    (data : option (dict (dict (list Row)))) (prices : list Row)
    (df : DataFrame) :
  get_stock_price svc [ticker] = Returns data ->
  usable_prices data ticker = Some prices ->
  pd_DataFrame svc prices = Returns df ->
  (set_mem (of_string "timestamp") (df_columns svc df) = false
   \/ set_mem (of_string "close") (df_columns svc df) = false) ->
  display_stock_chart svc ticker st
  = (Returns tt,
     log_events
       [StWarning Figure
          (of_string "Price data for " ++ ticker
           ++ of_string " is missing expected columns.");
        GetStockPrice Figure [ticker]; chart_header Figure ticker] st).
Proof.
  intros E1 E2 E3 Hcol. run_chart. rewrite E1, E2, E3.
  destruct Hcol as [-> | ->]; [reflexivity|].
  now rewrite orb_true_r.
Qed.

Lemma missing_columns_warn_witness :
  display_stock_chart no_close_services (of_string "AAPL") initial_state
  = (Returns tt,
     log_events
       [StWarning unit
          (of_string "Price data for " ++ of_string "AAPL"
           ++ of_string " is missing expected columns.");
        GetStockPrice unit [of_string "AAPL"];
        chart_header unit (of_string "AAPL")] initial_state).
Proof.
  exact (missing_columns_warn no_close_services (of_string "AAPL") initial_state
           (data := aapl_prices) (prices := [tt; tt]) (df := tt)
           eq_refl eq_refl eq_refl (or_intror eq_refl)).
Defined.

(** X10: an [Exception] raised by pandas or plotly while the chart is
    prepared (building the frame, converting the dates, removing missing
    values, drawing the line) is reported with [st.error], and the chart step
    returns without plotting. *)
Theorem chart_pipeline_failure_reported (Row DataFrame Figure : Type)
    (svc : services Row DataFrame Figure) (ticker : text) (st : state Figure)
    (data : option (dict (dict (list Row)))) (prices : list Row) (e : py_exn) :
  get_stock_price svc [ticker] = Returns data ->
  usable_prices data ticker = Some prices ->
  exn_is_Exception e = true ->
  (pd_DataFrame svc prices = Raises e
   \/ exists df1,
        pd_DataFrame svc prices = Returns df1
        /\ set_mem (of_string "timestamp") (df_columns svc df1) = true
        /\ set_mem (of_string "close") (df_columns svc df1) = true
        /\ (pd_to_datetime svc df1 = Raises e
            \/ exists df2,
                 pd_to_datetime svc df1 = Returns df2
                 /\ (df_dropna svc df2 = Raises e
                     \/ exists df3,
                          df_dropna svc df2 = Returns df3
                          /\ df_empty svc df3 = false
                          /\ px_line svc df3
                               (of_string "Recent Stock Price Trend for " ++ ticker)
                             = Raises e))) ->
  display_stock_chart svc ticker st
  = (Returns tt,
     log_events
       [StError Figure (chart_error ticker e);
        GetStockPrice Figure [ticker]; chart_header Figure ticker] st).
Proof.
  intros E1 E2 He Hfail. run_chart. rewrite E1, E2.
  destruct Hfail as [-> | (df1 & -> & -> & -> & Hfail)].
  - now rewrite He.
  - cbn [negb orb]. destruct Hfail as [-> | (df2 & -> & Hfail)].
    + now rewrite He.
    + destruct Hfail as [-> | (df3 & -> & -> & ->)]; cbn [negb]; now rewrite He.
Qed.

Lemma chart_pipeline_failure_reported_witness :
  display_stock_chart failing_plot_services (of_string "AAPL") initial_state
  = (Returns tt,
     log_events
       [StError unit (chart_error (of_string "AAPL") value_error);
        GetStockPrice unit [of_string "AAPL"];
        chart_header unit (of_string "AAPL")] initial_state).
Proof.
  apply (chart_pipeline_failure_reported failing_plot_services
           (of_string "AAPL") initial_state
           (data := aapl_prices) (prices := [tt; tt]) (e := value_error));
    try reflexivity.
  right. exists tt. split; [reflexivity|]. split; [reflexivity|].
  split; [reflexivity|]. right. exists tt. split; [reflexivity|].
  right. exists tt. split; [reflexivity|]. split; reflexivity.
Defined.

(** ** Further properties of the interaction *)

Section InteractionFacts.

Variable u : char -> bool.
Variables Row DataFrame Figure : Type.
Variable svc : services Row DataFrame Figure.

Lemma log_events_app (a b : list (event Figure)) (st : state Figure) :
  log_events a (log_events b st) = log_events (a ++ b) st.
Proof. unfold log_events. cbn. now rewrite app_assoc. Qed.

Lemma for_each_events (f : nat -> event Figure) (l : list nat) :
  forall st : state Figure,
    for_each l (fun i => bind (emit (f i)) (fun _ => emit (Sleep Figure))) st
    = (Returns tt,
       log_events (rev (flat_map (fun i => [f i; Sleep Figure]) l)) st).
Proof.
  induction l as [|i l IH]; intros st.
  - cbn. unfold ret, log_events. cbn. now rewrite state_eta.
  - cbn [for_each flat_map]. unfold bind at 1. unfold bind at 1.
    unfold emit at 1 2.
    cbn [session_messages trace full_response_content potential_ticker_for_chart].
    rewrite IH. unfold log_events.
    cbn [session_messages trace full_response_content potential_ticker_for_chart].
    rewrite rev_app_distr, <- app_assoc. reflexivity.
Qed.

Lemma stream_run (full : text) (st : state Figure) :
  stream full st = (Returns tt, log_events (stream_events Figure full) st).
Proof. unfold stream, stream_events. apply for_each_events. Qed.

(** The line [find_ticker_in_response] prints, if any. *)
Lemma find_ticker_call_run (full : text) (st : state Figure) :
  find_ticker_call u full st
  = (Returns (find_ticker_in_response u full),
     log_events
       match find_ticker_in_response u full with
       | Some ticker =>
           [Print Figure (of_string "--- Ticker Found in Financial Context: "
                          ++ ticker ++ of_string " ---")]
       | None => []
       end st).
Proof.
  unfold find_ticker_call.
  destruct (find_ticker_in_response u full); cbn; [reflexivity|].
  unfold ret, log_events. cbn. now rewrite state_eta.
Qed.

(** The interaction up to its last statement when the agent answers with
    a text, with all its events. *)
Lemma handle_prompt_answered_trace (prompt : text) (resp : response)
    (full : text) (st : state Figure) :
  agent_team_run svc prompt = Returns resp ->
  response_content resp = Some full ->
  handle_prompt u svc prompt st
  = maybeTriggerChart svc (find_ticker_in_response u full)
      (mkState
         (session_messages st
          ++ [mkMessage User (Some prompt); mkMessage Assistant (Some full)])
         (match find_ticker_in_response u full with
          | Some ticker =>
              [Print Figure (of_string "--- Ticker Found in Financial Context: "
                             ++ ticker ++ of_string " ---")]
          | None => []
          end
          ++ ContainerMarkdown Figure (Some full)
          :: stream_events Figure full
          ++ AgentRun Figure prompt :: prompt_events Figure prompt ++ trace st)
         (Some full) (find_ticker_in_response u full)).
Proof.
  intros Hrun Hcontent.
  unfold handle_prompt, agent_body, call.
  unfold bind at 1 2 3 4 5 6 7 8. unfold try_except_Exception.
  unfold bind at 1 2 3 4.
  unfold append_message at 1, emit at 1 2 3 4 5,
    set_full_response_content at 1 2, set_potential_ticker_for_chart at 1,
    get_full_response_content at 1.
  cbn [session_messages trace full_response_content potential_ticker_for_chart].
  rewrite Hrun, Hcontent.
  unfold bind at 1. rewrite stream_run.
  unfold bind at 1. unfold emit at 1.
  unfold bind at 1. rewrite find_ticker_call_run.
  unfold bind, emit, ret, set_potential_ticker_for_chart,
    get_full_response_content, append_message, get_potential_ticker_for_chart,
    log_events, prompt_events.
  cbn [session_messages trace full_response_content potential_ticker_for_chart].
  rewrite <- !app_assoc. reflexivity.
Qed.

(** The interaction when the agent run raises an [Exception], or returns
    an object whose content is [None]. *)
Lemma handle_prompt_failed (prompt : text) (e : py_exn) (st : state Figure) :
  (agent_team_run svc prompt = Raises e /\ exn_is_Exception e = true)
  \/ (exists resp, agent_team_run svc prompt = Returns resp
        /\ response_content resp = None /\ e = len_of_None) ->
  handle_prompt u svc prompt st
  = (Returns tt,
     mkState
       (session_messages st
        ++ [mkMessage User (Some prompt);
            mkMessage Assistant (Some (sorry_message e))])
       (ContainerMarkdown Figure (Some (sorry_message e))
        :: StError Figure (warning_sign ++ of_string " An error occurred: "
                           ++ exn_str e)
        :: AgentRun Figure prompt :: prompt_events Figure prompt ++ trace st)
       (Some (sorry_message e)) None).
Proof.
  intros H.
  unfold handle_prompt, agent_body, call, agent_failed, try_except_Exception,
    bind, emit, append_message, set_full_response_content,
    set_potential_ticker_for_chart, get_full_response_content,
    get_potential_ticker_for_chart, raise, prompt_events.
  cbn [session_messages trace full_response_content potential_ticker_for_chart].
  destruct H as [[-> He] | (resp & -> & Hc & ->)].
  - rewrite He.
    cbn [session_messages trace full_response_content
         potential_ticker_for_chart maybeTriggerChart ret app].
    now rewrite <- app_assoc.
  - rewrite Hc.
    cbn [session_messages trace full_response_content exn_is_Exception len_of_None
         potential_ticker_for_chart maybeTriggerChart ret app].
    now rewrite <- app_assoc.
Qed.

Lemma handle_prompt_interrupted (prompt : text) (e : py_exn) (st : state Figure) :
  agent_team_run svc prompt = Raises e -> exn_is_Exception e = false ->
  handle_prompt u svc prompt st
  = (Raises e,
     mkState (session_messages st ++ [mkMessage User (Some prompt)])
             (AgentRun Figure prompt :: prompt_events Figure prompt ++ trace st)
             (Some []) None).
Proof.
  intros Hrun He.
  unfold handle_prompt, agent_body, call, agent_failed, try_except_Exception,
    bind, emit, append_message, set_full_response_content,
    set_potential_ticker_for_chart, get_full_response_content,
    get_potential_ticker_for_chart, prompt_events.
  cbn [session_messages trace full_response_content potential_ticker_for_chart].
  rewrite Hrun, He. reflexivity.
Qed.

End InteractionFacts.

(** X11: an interaction always records the user's message, and then one
    assistant message whose content is a string, the one left in the response
    placeholder and in [full_response_content]; the only exception to the
    second part is an agent run left by something that is not an
    [Exception]. *)
Theorem history_records_what_is_shown (u : char -> bool)
    (Row DataFrame Figure : Type) (svc : services Row DataFrame Figure)
    (prompt : text) (st : state Figure) :
  let out := handle_prompt u svc prompt st in
  (exists c,
     session_messages (snd out)
     = session_messages st
       ++ [mkMessage User (Some prompt); mkMessage Assistant (Some c)]
     /\ full_response_content (snd out) = Some c
     /\ last_shown (trace (snd out)) = Some (Some c))
  \/ (exists e,
        agent_team_run svc prompt = Raises e
        /\ exn_is_Exception e = false
        /\ fst out = Raises e
        /\ session_messages (snd out)
           = session_messages st ++ [mkMessage User (Some prompt)]).
Proof.
  cbv zeta. destruct (agent_team_run svc prompt) as [resp|e] eqn:Hrun.
  - left. destruct (response_content resp) as [full|] eqn:Hc.
    + exists full. rewrite (handle_prompt_answered_trace u svc prompt st Hrun Hc).
      destruct (find_ticker_in_response u full) as [[|c ticker]|].
      * cbn. repeat split; reflexivity.
      * cbn [maybeTriggerChart].
        match goal with
        | |- context [display_stock_chart svc ?tk ?st0] =>
            destruct (display_stock_chart_shape svc tk st0)
              as [(fb & Hfb & E) | (e & _ & E)]; rewrite E
        end.
        -- destruct fb; try discriminate Hfb; cbn; repeat split; reflexivity.
        -- cbn. repeat split; reflexivity.
      * cbn. repeat split; reflexivity.
    + exists (sorry_message len_of_None).
      rewrite (handle_prompt_failed u svc prompt (e := len_of_None) st)
        by (right; exists resp; repeat split; assumption).
      cbn. repeat split; reflexivity.
  - destruct (exn_is_Exception e) eqn:He.
    + left. exists (sorry_message e).
      rewrite (handle_prompt_failed u svc prompt (e := e) st)
        by (left; split; assumption).
      cbn. repeat split; reflexivity.
    + right. exists e.
      rewrite (handle_prompt_interrupted u svc prompt st Hrun He).
      cbn. repeat split; try reflexivity; exact He.
Qed.

(** X12: an interaction is left only by an exception that is not an
    [Exception], raised either by the agent run, with the user's message
    recorded, or by the chart step, with the response recorded as well. *)
Theorem interaction_raises_only_non_Exception (u : char -> bool)
    (Row DataFrame Figure : Type) (svc : services Row DataFrame Figure)
    (prompt : text) (st st' : state Figure) (e : py_exn) :
  handle_prompt u svc prompt st = (Raises e, st') ->
  exn_is_Exception e = false
  /\ ((agent_team_run svc prompt = Raises e
       /\ session_messages st'
          = session_messages st ++ [mkMessage User (Some prompt)])
      \/ exists resp full ticker,
           agent_team_run svc prompt = Returns resp
           /\ response_content resp = Some full
           /\ find_ticker_in_response u full = Some ticker
           /\ session_messages st'
              = session_messages st
                ++ [mkMessage User (Some prompt);
                    mkMessage Assistant (Some full)]).
Proof.
  intros H. split; [exact (handle_prompt_escapes u svc prompt st H)|].
  destruct (agent_team_run svc prompt) as [resp|e0] eqn:Hrun.
  - right. destruct (response_content resp) as [full|] eqn:Hc.
    + rewrite (handle_prompt_answered_trace u svc prompt st Hrun Hc) in H.
      destruct (find_ticker_in_response u full) as [[|c ticker]|] eqn:Hf;
        try discriminate H.
      cbn [maybeTriggerChart] in H.
      match type of H with
      | display_stock_chart svc ?tk ?st0 = _ =>
          destruct (display_stock_chart_shape svc tk st0)
            as [(fb & Hfb & E) | (e1 & _ & E)]; rewrite E in H
      end; [discriminate H|].
      injection H as _ <-. exists resp, full, (c :: ticker).
      repeat split; try reflexivity; assumption.
    + rewrite (handle_prompt_failed u svc prompt (e := len_of_None) st) in H
        by (right; exists resp; repeat split; assumption).
      discriminate H.
  - left. destruct (exn_is_Exception e0) eqn:He.
    + rewrite (handle_prompt_failed u svc prompt (e := e0) st) in H
        by (left; split; assumption).
      discriminate H.
    + rewrite (handle_prompt_interrupted u svc prompt st Hrun He) in H.
      injection H as <- <-. split; reflexivity.
Qed.

Lemma interaction_raises_only_non_Exception_witness :
  fst (handle_prompt ascii_only interrupted_chart_services prompt1 initial_state)
  = Raises keyboard_interrupt
  /\ exn_is_Exception keyboard_interrupt = false.
Proof.
  set (out := handle_prompt ascii_only interrupted_chart_services prompt1
                initial_state).
  assert (E : out = (Raises keyboard_interrupt, snd out))
    by (vm_compute; reflexivity).
  split; [now rewrite E|].
  exact (proj1 (interaction_raises_only_non_Exception ascii_only
                  interrupted_chart_services prompt1 initial_state E)).
Defined.

(** X13: when the agent's response object has [None] as content, taking
    its length fails; the failure is handled like a failed agent run: the
    assistant's message is the apology with the text of the [TypeError], and
    the price tool is not called. *)
Theorem none_content_reported (u : char -> bool)
    (Row DataFrame Figure : Type) (svc : services Row DataFrame Figure)
    (prompt : text) (resp : response) (st : state Figure) :
  agent_team_run svc prompt = Returns resp ->
  response_content resp = None ->
  let out := handle_prompt u svc prompt st in
  fst out = Returns tt
  /\ session_messages (snd out)
     = session_messages st
       ++ [mkMessage User (Some prompt);
           mkMessage Assistant
             (Some (of_string "Sorry, I encountered an error processing your request: object of type 'NoneType' has no len()"))]
  /\ chart_calls (trace (snd out)) = chart_calls (trace st).
Proof.
  intros Hrun Hc. cbv zeta.
  rewrite (handle_prompt_failed u svc prompt (e := len_of_None) st)
    by (right; exists resp; repeat split; assumption).
  cbn. repeat split; reflexivity.
Qed.

Lemma none_content_reported_witness :
  fst (handle_prompt ascii_only none_content_services prompt1 initial_state)
  = Returns tt
  /\ session_messages
       (snd (handle_prompt ascii_only none_content_services prompt1 initial_state))
     = [mkMessage User (Some prompt1);
        mkMessage Assistant
          (Some (of_string "Sorry, I encountered an error processing your request: object of type 'NoneType' has no len()"))].
Proof.
  destruct (none_content_reported ascii_only none_content_services prompt1
              (resp := RunResponse None) initial_state eq_refl eq_refl)
    as (H1 & H2 & _).
  exact (conj H1 H2).
Defined.

(** X14: in an interaction the price tool is called exactly when the agent
    answered with a text from which a ticker was extracted, and then once,
    for that ticker. *)
Theorem chart_called_for_extracted_ticker_only (u : char -> bool)
    (Row DataFrame Figure : Type) (svc : services Row DataFrame Figure)
    (prompt : text) (st : state Figure) :
  chart_calls (trace (snd (handle_prompt u svc prompt st)))
  = match agent_team_run svc prompt with
    | Returns resp =>
        match response_content resp with
        | Some full =>
            match find_ticker_in_response u full with
            | Some ticker => [ticker] :: chart_calls (trace st)
            | None => chart_calls (trace st)
            end
        | None => chart_calls (trace st)
        end
    | Raises _ => chart_calls (trace st)
    end.
Proof.
  destruct (agent_team_run svc prompt) as [resp|e] eqn:Hrun.
  - destruct (response_content resp) as [full|] eqn:Hc.
    + destruct (handle_prompt_answered u svc prompt st Hrun Hc) as (tr & E & Htr).
      rewrite E. destruct (find_ticker_in_response u full) as [ticker|] eqn:Hf.
      * assert (Hne := found_ticker_not_empty u full Hf).
        destruct ticker as [|c ticker]; [congruence|].
        cbn [maybeTriggerChart].
        match goal with
        | |- context [display_stock_chart svc ?tk ?st0] =>
            destruct (display_stock_chart_shape svc tk st0)
              as [(fb & Hfb & E1) | (e & _ & E1)]; rewrite E1
        end.
        -- destruct fb; try discriminate Hfb; cbn; now rewrite Htr.
        -- cbn. now rewrite Htr.
      * cbn. exact Htr.
    + rewrite (handle_prompt_failed u svc prompt (e := len_of_None) st)
        by (right; exists resp; repeat split; assumption).
      reflexivity.
  - destruct (exn_is_Exception e) eqn:He.
    + rewrite (handle_prompt_failed u svc prompt (e := e) st)
        by (left; split; assumption).
      reflexivity.
    + rewrite (handle_prompt_interrupted u svc prompt st Hrun He). reflexivity.
Qed.

Lemma shown_app (Figure : Type) (a b : list (event Figure)) :
  shown (a ++ b) = shown a ++ shown b.
Proof.
  induction a as [|e a IH]; [reflexivity|].
  destruct e; cbn; rewrite ?IH; reflexivity.
Qed.

Lemma shown_rev (Figure : Type) (l : list (event Figure)) :
  shown (rev l) = rev (shown l).
Proof.
  induction l as [|e l IH]; [reflexivity|].
  cbn [rev]. rewrite shown_app, IH.
  destruct e; cbn; rewrite ?app_nil_r; reflexivity.
Qed.

Lemma shown_frames (Figure : Type) (f : nat -> option text) (l : list nat) :
  shown (flat_map (fun i => [ContainerMarkdown Figure (f i); Sleep Figure]) l)
  = map f l.
Proof.
  induction l as [|i l IH]; [reflexivity|]. cbn. now rewrite IH.
Qed.

(** X15: the streaming loop shows the response in frames, each followed by
    the cursor: the first 5 characters, then the first 10, and so on, one
    frame for every 5 characters or part of them; the last frame holds the
    whole response, and an empty response gives no frame. *)
Theorem stream_shows_growing_prefixes (Figure : Type) (full : text)
    (st : state Figure) :
  stream full st = (Returns tt, log_events (stream_events Figure full) st)
  /\ rev (shown (stream_events Figure full))
     = map (fun k => Some (firstn (5 * (k + 1)) full ++ cursor))
           (seq 0 ((List.length full + 4) / 5))
  /\ (full <> [] ->
      hd_error (shown (stream_events Figure full)) = Some (Some (full ++ cursor))).
Proof.
  assert (Hframes : rev (shown (stream_events Figure full))
                    = map (fun k => Some (firstn (5 * (k + 1)) full ++ cursor))
                          (seq 0 ((List.length full + 4) / 5))).
  { unfold stream_events. rewrite shown_rev, rev_involutive.
    rewrite (shown_frames Figure
               (fun i => Some (firstn (i + 5) full ++ cursor))).
    unfold py_range. rewrite map_map.
    replace (List.length full + 5 - 1) with (List.length full + 4) by lia.
    apply map_ext. intros k. do 3 f_equal. lia. }
  split; [apply stream_run|]. split; [exact Hframes|].
  intros Hne.
  assert (Hn : 0 < List.length full) by (destruct full; [congruence | simpl; lia]).
  set (q := (List.length full + 4) / 5) in *.
  assert (Hq : 0 < q /\ List.length full <= 5 * q).
  { pose proof (Nat.div_mod_eq (List.length full + 4) 5) as Hd.
    pose proof (Nat.mod_upper_bound (List.length full + 4) 5) as Hm.
    fold q in Hd. lia. }
  destruct q as [|q']; [lia|].
  rewrite seq_S, map_app in Hframes. cbn [map] in Hframes.
  apply (f_equal (@rev _)) in Hframes.
  rewrite rev_involutive, rev_app_distr in Hframes. cbn [rev app] in Hframes.
  rewrite Hframes. cbn [hd_error]. do 3 f_equal.
  apply firstn_all2. cbn [plus]. lia.
Qed.

Lemma stream_shows_growing_prefixes_witness :
  of_string "AAPL up" <> []
  /\ shown (stream_events unit (of_string "AAPL up"))
     = [Some (of_string "AAPL up" ++ cursor); Some (of_string "AAPL " ++ cursor)].
Proof.
  split; [discriminate|].
  pose proof (proj2 (stream_shows_growing_prefixes (of_string "AAPL up")
                       initial_state)) as [H _].
  apply (f_equal (@rev _)) in H. rewrite rev_involutive in H. exact H.
Defined.

(** ** Properties of a run of [main] *)

Section PageFacts.

Variable u : char -> bool.
Variables Row DataFrame Figure : Type.
Variable svc : services Row DataFrame Figure.

Abbreviation history p :=
  (match stored_messages p with Some m => m | None => [] end).

Lemma page_eta (p : page Figure) :
  mkPage (stored_messages p) (page_events p) = p.
Proof. now destruct p. Qed.

Lemma replay_run (l : list message) : forall p : page Figure,
  pfor_each l (fun message => show (Replayed Figure (msg_role message)
                                             (msg_content message))) p
  = (Next tt,
     mkPage (stored_messages p)
            (rev (map (fun m => Replayed Figure (msg_role m) (msg_content m)) l)
             ++ page_events p)).
Proof.
  induction l as [|m l IH]; intros p.
  - cbn. unfold pret. now rewrite page_eta.
  - cbn [pfor_each map rev]. unfold pbind at 1. unfold show at 1.
    rewrite IH. cbn [stored_messages page_events].
    now rewrite <- app_assoc.
Qed.

Lemma main_cleared (inp : page_inputs) (p : page Figure) :
  clear_clicked inp = true ->
  main u svc inp p
  = (Rerun, mkPage (Some []) (top_events Figure inp ++ page_events p)).
Proof.
  intros Hc. unfold main, top_events, pbind, show, set_messages, st_rerun, pret.
  rewrite Hc. now destruct (about_clicked inp).
Qed.

(** A run in which the history is not cleared, up to the construction of
    the agents. *)
Lemma main_run (inp : page_inputs) (p : page Figure) :
  clear_clicked inp = false ->
  let before :=
    mkPage (Some (history p))
           (replay_events Figure (history p)
            ++ PageIntro Figure :: PageTitle Figure
            
            :: top_events Figure inp ++ page_events p) in
  main u svc inp p
  = match initialize_agents inp, get_yfinance_tool inp with
    | Returns _, Returns _ =>
        match chat_input inp with
        | Some (c :: prompt) => interact u svc (c :: prompt) before
        | _ => (Next tt, before)
        end
    | Raises e, _ | Returns _, Raises e =>
        if exn_is_Exception e
        then (Stopped,
              mkPage (Some (history p))
                     (InitError Figure
                        (of_string "Please check API keys and tool configurations.")
                      :: InitError Figure
                           (red_circle
                            ++ of_string " Critical Error during initialization: "
                            ++ exn_str e)
                      :: page_events before))
        else (Raised e, before)
    end.
Proof.
  intros Hc. cbv zeta.
  unfold main, top_events, replay_events, pbind, show, get_messages, pret,
    set_messages, st_rerun, ptry_except_Exception, construct, st_stop.
  rewrite Hc.
  destruct (about_clicked inp); destruct (stored_messages p) as [m|];
    cbv beta iota; cbn [stored_messages page_events];
    rewrite replay_run; cbn [stored_messages page_events];
    destruct (initialize_agents inp) as [[]|e];
    try destruct (get_yfinance_tool inp) as [[]|e'];
    try destruct (exn_is_Exception e);
    try destruct (exn_is_Exception e');
    cbn [stored_messages page_events app]; rewrite <- ?app_assoc;
    try reflexivity;
    destruct (chat_input inp) as [[|c prompt]|]; reflexivity.
Qed.

End PageFacts.

Section PageObservations.

Variable u : char -> bool.
Variables Row DataFrame Figure : Type.
Variable svc : services Row DataFrame Figure.

Lemma interactions_app (a b : list (page_event Figure)) :
  interactions (a ++ b) = interactions a ++ interactions b.
Proof.
  induction a as [|e a IH]; [reflexivity|].
  destruct e; cbn; rewrite ?IH; reflexivity.
Qed.

Lemma replayed_app (a b : list (page_event Figure)) :
  replayed (a ++ b) = replayed a ++ replayed b.
Proof.
  induction a as [|e a IH]; [reflexivity|].
  destruct e; cbn; rewrite ?IH; reflexivity.
Qed.

Lemma interactions_map (tr : list (event Figure)) :
  interactions (map (@Interaction Figure) tr) = tr.
Proof. induction tr as [|e tr IH]; cbn; [|rewrite IH]; reflexivity. Qed.

Lemma replayed_map (tr : list (event Figure)) :
  replayed (map (@Interaction Figure) tr) = [].
Proof. induction tr as [|e tr IH]; cbn; [|rewrite IH]; reflexivity. Qed.

Lemma interactions_top (inp : page_inputs) :
  interactions (top_events Figure inp) = [].
Proof. unfold top_events. now destruct (about_clicked inp). Qed.

Lemma replayed_top (inp : page_inputs) :
  replayed (top_events Figure inp) = [].
Proof. unfold top_events. now destruct (about_clicked inp). Qed.

Lemma interactions_replay (l : list message) :
  interactions (replay_events Figure l) = [].
Proof.
  unfold replay_events. induction l as [|m l IH]; [reflexivity|].
  cbn [map rev]. rewrite interactions_app, IH. reflexivity.
Qed.

Lemma replayed_replay (l : list message) :
  replayed (replay_events Figure l) = rev l.
Proof.
  unfold replay_events. induction l as [|m l IH]; [reflexivity|].
  cbn [map rev]. rewrite replayed_app, IH. now destruct m.
Qed.

(** The history and the events an interaction leaves. *)
Lemma handle_prompt_history (prompt : text) (st : state Figure) :
  let out := handle_prompt u svc prompt st in
  (session_messages (snd out)
   = session_messages st ++ [mkMessage User (Some prompt)]
   \/ exists c,
        session_messages (snd out)
        = session_messages st
          ++ [mkMessage User (Some prompt); mkMessage Assistant (Some c)])
  /\ trace (snd out) <> [].
Proof.
  cbv zeta. destruct (agent_team_run svc prompt) as [resp|e] eqn:Hrun.
  - destruct (response_content resp) as [full|] eqn:Hc.
    + rewrite (handle_prompt_answered_trace u svc prompt st Hrun Hc).
      destruct (find_ticker_in_response u full) as [[|c ticker]|].
      * cbn. split; [right; now exists full | discriminate].
      * cbn [maybeTriggerChart].
        match goal with
        | |- context [display_stock_chart svc ?tk ?st0] =>
            destruct (display_stock_chart_shape svc tk st0)
              as [(fb & Hfb & E) | (e & _ & E)]; rewrite E
        end; cbn; (split; [right; now exists full | discriminate]).
      * cbn. split; [right; now exists full | discriminate].
    + rewrite (handle_prompt_failed u svc prompt (e := len_of_None) st)
        by (right; exists resp; repeat split; assumption).
      cbn. split; [right; eexists; reflexivity | discriminate].
  - destruct (exn_is_Exception e) eqn:He.
    + rewrite (handle_prompt_failed u svc prompt (e := e) st)
        by (left; split; assumption).
      cbn. split; [right; eexists; reflexivity | discriminate].
    + rewrite (handle_prompt_interrupted u svc prompt st Hrun He).
      cbn. split; [now left | discriminate].
Qed.

End PageObservations.

Ltac page_observations :=
  repeat (progress cbn [interactions replayed]
          || rewrite interactions_app || rewrite replayed_app);
  rewrite ?interactions_top, ?interactions_replay, ?interactions_map,
    ?replayed_top, ?replayed_replay, ?replayed_map;
  cbn [app].

(** X16: when the Clear button is clicked the run leaves an empty history
    and asks for a rerun; nothing of the old history is replayed, no agent
    or tool is constructed and no prompt is handled in that run. *)
Theorem clear_button_empties_history (u : char -> bool)
    (Row DataFrame Figure : Type) (svc : services Row DataFrame Figure)
    (inp : page_inputs) (p : page Figure) :
  clear_clicked inp = true ->
  let out := main u svc inp p in
  fst out = Rerun
  /\ stored_messages (snd out) = Some []
  /\ interactions (page_events (snd out)) = interactions (page_events p)
  /\ replayed (page_events (snd out)) = replayed (page_events p).
Proof.
  intros Hc. cbv zeta. rewrite (main_cleared u svc inp p Hc).
  cbn [fst snd stored_messages page_events].
  rewrite interactions_app, replayed_app, interactions_top, replayed_top.
  repeat split; reflexivity.
Qed.

Lemma clear_button_empties_history_witness :
  let out := main ascii_only plotting_services
               (mkInputs false true (Returns tt) (Returns tt) (Some prompt1))
               page1 in
  fst out = Rerun /\ stored_messages (snd out) = Some [].
Proof.
  destruct (clear_button_empties_history ascii_only plotting_services
              (mkInputs false true (Returns tt) (Returns tt) (Some prompt1))
              page1 eq_refl) as (H1 & H2 & _).
  exact (conj H1 H2).
Defined.

(** X17: when the construction of the agents or of the price tool raises
    an [Exception], the run shows the two error lines and stops: the history
    is kept as it was and no prompt is handled. *)
Theorem initialization_failure_stops_run (u : char -> bool)
    (Row DataFrame Figure : Type) (svc : services Row DataFrame Figure)
    (inp : page_inputs) (p : page Figure) (e : py_exn) :
  clear_clicked inp = false ->
  (initialize_agents inp = Raises e
   \/ (initialize_agents inp = Returns tt /\ get_yfinance_tool inp = Raises e)) ->
  exn_is_Exception e = true ->
  let out := main u svc inp p in
  fst out = Stopped
  /\ stored_messages (snd out) = Some (page_history p)
  /\ interactions (page_events (snd out)) = interactions (page_events p)
  /\ exists earlier,
       page_events (snd out)
       = InitError Figure
           (of_string "Please check API keys and tool configurations.")
         :: InitError Figure
              (red_circle ++ of_string " Critical Error during initialization: "
               ++ exn_str e)
         :: earlier.
Proof.
  intros Hc Hinit He. cbv zeta. rewrite (main_run u svc inp p Hc). cbv zeta.
  assert (Hcase :
    match initialize_agents inp, get_yfinance_tool inp with
    | Returns _, Returns _ => False
    | Raises e0, _ | Returns _, Raises e0 => e0 = e
    end).
  { destruct Hinit as [-> | [-> ->]]; reflexivity. }
  destruct (initialize_agents inp) as [[]|e0];
    [destruct (get_yfinance_tool inp) as [[]|e1]; [contradiction|]|];
    subst; rewrite He; cbn [fst snd stored_messages page_events];
    page_observations;
    (repeat split; try reflexivity); eexists; reflexivity.
Qed.

Lemma initialization_failure_stops_run_witness :
  let out := main ascii_only plotting_services
               (mkInputs false false (Raises credentials_error) (Returns tt)
                         (Some prompt1))
               page1 in
  fst out = Stopped /\ stored_messages (snd out) = Some history1.
Proof.
  destruct (initialization_failure_stops_run ascii_only plotting_services
              (mkInputs false false (Raises credentials_error) (Returns tt)
                        (Some prompt1))
              page1 (e := credentials_error) eq_refl (or_introl eq_refl) eq_refl)
    as (H1 & H2 & _).
  exact (conj H1 H2).
Defined.

(** The history and the events [interact] leaves on a page. *)
Lemma interact_run (u : char -> bool) (Row DataFrame Figure : Type)
    (svc : services Row DataFrame Figure) (prompt : text) (p : page Figure) :
  let out := interact u svc prompt p in
  (exists new,
     stored_messages (snd out) = Some (page_history p ++ new)
     /\ 1 <= List.length new <= 2)
  /\ (exists tr, tr <> []
        /\ page_events (snd out) = map (@Interaction Figure) tr ++ page_events p).
Proof.
  cbv zeta. unfold interact. fold (page_history p).
  pose proof (handle_prompt_history u svc prompt
                (mkState (page_history p) [] None None)) as [Hm Ht].
  cbv zeta in Hm, Ht.
  destruct (handle_prompt u svc prompt (mkState (page_history p) [] None None))
    as [r st'].
  cbn [fst snd stored_messages page_events session_messages trace] in *.
  split.
  - destruct Hm as [-> | (c & ->)]; eexists; (split; [reflexivity | cbn; lia]).
  - exists (trace st'). split; [exact Ht | reflexivity].
Qed.

(** X18: unless the Clear button is clicked, a run only appends to the
    history: the messages stored before are kept in place, and at most the
    user's prompt and one assistant message are added after them. *)
Theorem history_is_append_only (u : char -> bool)
    (Row DataFrame Figure : Type) (svc : services Row DataFrame Figure)
    (inp : page_inputs) (p : page Figure) :
  clear_clicked inp = false ->
  exists new,
    stored_messages (snd (main u svc inp p)) = Some (page_history p ++ new)
    /\ List.length new <= 2.
Proof.
  intros Hc. rewrite (main_run u svc inp p Hc). cbv zeta.
  assert (Hsame : forall (evs : list (page_event Figure)) (f : flow unit),
             exists new,
               stored_messages (snd (f, mkPage (Some (page_history p)) evs))
               = Some (page_history p ++ new) /\ List.length new <= 2).
  { intros evs f. exists []. cbn. rewrite app_nil_r. split; [reflexivity | lia]. }
  destruct (initialize_agents inp) as [[]|e];
    [destruct (get_yfinance_tool inp) as [[]|e]|];
    try (destruct (exn_is_Exception e); apply Hsame).
  destruct (chat_input inp) as [[|c prompt]|]; try apply Hsame.
  match goal with
  | |- context [interact u svc ?pr ?p0] =>
      destruct (interact_run u svc pr p0) as [(new & E & Hl) _]
  end.
  exists new. split; [exact E | lia].
Qed.

Lemma history_is_append_only_witness :
  exists new,
    stored_messages
      (snd (main ascii_only failing_agent_services
              (mkInputs false false (Returns tt) (Returns tt) (Some prompt1))
              page1))
    = Some (history1 ++ new)
    /\ List.length new <= 2.
Proof.
  exact (history_is_append_only ascii_only failing_agent_services
           (mkInputs false false (Returns tt) (Returns tt) (Some prompt1))
           page1 eq_refl).
Defined.

(** X19: unless the Clear button is clicked, a run replays every stored
    message once, in the order of the history, and replays nothing else. *)
Theorem history_replayed_in_order (u : char -> bool)
    (Row DataFrame Figure : Type) (svc : services Row DataFrame Figure)
    (inp : page_inputs) (p : page Figure) :
  clear_clicked inp = false ->
  replayed (page_events (snd (main u svc inp p)))
  = rev (page_history p) ++ replayed (page_events p).
Proof.
  intros Hc. rewrite (main_run u svc inp p Hc). cbv zeta.
  fold (page_history p).
  destruct (initialize_agents inp) as [[]|e];
    [destruct (get_yfinance_tool inp) as [[]|e]|];
    try (destruct (exn_is_Exception e);
         cbn [snd page_events]; page_observations; reflexivity).
  destruct (chat_input inp) as [[|c prompt]|];
    try (cbn [snd page_events]; page_observations; reflexivity).
  match goal with
  | |- context [interact u svc ?pr ?p0] =>
      destruct (interact_run u svc pr p0) as [_ (tr & _ & E)]
  end.
  rewrite E. cbn [page_events]. page_observations. reflexivity.
Qed.

Lemma history_replayed_in_order_witness :
  replayed (page_events
              (snd (main ascii_only failing_agent_services
                      (mkInputs true false (Returns tt) (Returns tt) (Some prompt1))
                      page1)))
  = rev history1.
Proof.
  rewrite (history_replayed_in_order ascii_only failing_agent_services
             (mkInputs true false (Returns tt) (Returns tt) (Some prompt1))
             page1 eq_refl).
  reflexivity.
Defined.

(** X20: a run handles a prompt, showing the user's message and calling
    the agent, exactly when the Clear button was not clicked, the agents and
    the price tool were constructed, and the chat input holds a non-empty
    string. *)
Theorem prompt_handled_iff (u : char -> bool)
    (Row DataFrame Figure : Type) (svc : services Row DataFrame Figure)
    (inp : page_inputs) (p : page Figure) :
  interactions (page_events (snd (main u svc inp p)))
    <> interactions (page_events p)
  <-> (clear_clicked inp = false
       /\ initialize_agents inp = Returns tt
       /\ get_yfinance_tool inp = Returns tt
       /\ exists c prompt, chat_input inp = Some (c :: prompt)).
Proof.
  destruct (clear_clicked inp) eqn:Hc.
  - rewrite (main_cleared u svc inp p Hc). cbn [snd page_events].
    page_observations. split; [congruence | intros (H & _); discriminate].
  - rewrite (main_run u svc inp p Hc). cbv zeta. fold (page_history p).
    destruct (initialize_agents inp) as [[]|e];
      [destruct (get_yfinance_tool inp) as [[]|e]|];
      try (destruct (exn_is_Exception e);
           cbn [snd page_events]; page_observations;
           (split; [congruence | intros (_ & H1 & H2 & _); discriminate])).
    destruct (chat_input inp) as [[|c prompt]|];
      try (cbn [snd page_events]; page_observations;
           (split; [congruence | intros (_ & _ & _ & c & pr & H); discriminate])).
    match goal with
    | |- context [interact u svc ?pr ?p0] =>
        destruct (interact_run u svc pr p0) as [_ (tr & Hne & E)]
    end.
    rewrite E. cbn [page_events]. page_observations. split.
    + intros _. repeat split. now exists c, prompt.
    + intros _ H. apply (f_equal (@List.length _)) in H.
      rewrite length_app in H. destruct tr; [congruence | cbn in H; lia].
Qed.

(** ** [get_installed_package_versions] *)

Module CheckVersionsFacts.
Import CheckVersions.

Example sample_run :
  get_installed_package_versions ascii_only sample_pip
    (of_string "requirements.txt") (Ok sample_requirements)
  = (Ok [(of_string "agno", of_string "1.2.6");
         (of_string "streamlit", of_string "1.44.0")],
     [of_string "Warning: Could not find package unknown-package: Command '['pip', 'show', 'x']' returned non-zero exit status 1."]).
Proof. vm_compute. reflexivity. Qed.

Section ScriptFacts.

Variable sp : char -> bool.
Variable pip : text -> outcome text.

Abbreviation check := (check_packages sp pip).

(** *** The dictionary *)

Lemma dict_set_In (d : dict text) (k v k' v' : text) :
  In (k', v') (dict_set d k v) -> (k', v') = (k, v) \/ In (k', v') d.
Proof.
  induction d as [|[k0 v0] d IH]; cbn.
  - intros [E | []]. now left.
  - destruct (text_eqb k k0) eqn:E.
    + apply text_eqb_eq in E. subst k0. intros [H | H].
      * left. now rewrite <- H.
      * right. now right.
    + intros [H | H]; [right; now left|].
      destruct (IH H) as [H' | H']; [now left | right; now right].
Qed.

Lemma dict_set_keys (d : dict text) (k v k' : text) :
  In k' (map fst (dict_set d k v)) -> k' = k \/ In k' (map fst d).
Proof.
  induction d as [|[k0 v0] d IH]; cbn.
  - intros [E | []]. now left.
  - destruct (text_eqb k k0) eqn:E; cbn.
    + intros [H | H]; right; [now left | now right].
    + intros [H | H]; [right; now left|].
      destruct (IH H) as [H' | H']; [now left | right; now right].
Qed.

Lemma dict_set_NoDup (d : dict text) (k v : text) :
  NoDup (map fst d) -> NoDup (map fst (dict_set d k v)).
Proof.
  induction d as [|[k0 v0] d IH]; cbn; intros H.
  - constructor; [intros [] | constructor].
  - destruct (text_eqb k k0) eqn:E; cbn; [exact H|].
    inversion H as [|? ? Hn Hd]; subst. constructor; [|now apply IH].
    intros Hin. apply dict_set_keys in Hin as [-> | Hin]; [|contradiction].
    assert (text_eqb k k = true) by now apply text_eqb_eq. congruence.
Qed.

(** *** The two patterns *)

Lemma take_while_app (f : char -> bool) (s : text) :
  exists rest, s = take_while f s ++ rest
               /\ Forall (fun c => f c = true) (take_while f s)
               /\ (forall c rest', rest = c :: rest' -> f c = false).
Proof.
  induction s as [|c s (rest & E & Hf & Hr)]; cbn.
  - exists []. repeat split; [constructor | discriminate].
  - destruct (f c) eqn:Hc.
    + exists rest. cbn. rewrite <- E. repeat split; [now constructor | exact Hr].
    + exists (c :: s). repeat split; [constructor|].
      intros c' rest' H. now injection H as <- _.
Qed.

Lemma take_while_all (f : char -> bool) (a b : text) :
  Forall (fun c => f c = true) a ->
  (forall c b', b = c :: b' -> f c = false) ->
  take_while f (a ++ b) = a.
Proof.
  intros Ha Hb. induction Ha as [|c a Hc Ha IH]; cbn.
  - destruct b as [|c b']; [reflexivity|]. cbn. now rewrite (Hb c b' eq_refl).
  - now rewrite Hc, IH.
Qed.

Lemma package_name_of_Some (package name : text) :
  package_name_of package = Some name ->
  name <> [] /\ Forall (fun c => name_char c = true) name
  /\ exists rest, package = name ++ rest.
Proof.
  unfold package_name_of.
  destruct (take_while_app name_char package) as (rest & E & Hf & _).
  destruct (take_while name_char package) as [|c n]; [discriminate|].
  intros H. injection H as <-. repeat split; [discriminate | exact Hf|].
  now exists rest.
Qed.

Lemma version_here_Some (out v : text) :
  version_here sp out = Some v ->
  v <> [] /\ Forall (fun c => is_space sp c = false) v
  /\ exists b, out = of_string "Version: " ++ v ++ b.
Proof.
  unfold version_here.
  destruct (starts_with (of_string "Version: ") out) eqn:E; [|discriminate].
  apply starts_with_app in E as (b & ->).
  change (skipn 9 (of_string "Version: " ++ b)) with b.
  destruct (take_while_app (fun c => negb (is_space sp c)) b) as (rest & Eb & Hf & _).
  destruct (take_while (fun c => negb (is_space sp c)) b) as [|c v0];
    [discriminate|].
  intros H. injection H as <-. repeat split; [discriminate | | ].
  - eapply Forall_impl; [|exact Hf]. intros a Ha. now apply negb_true_iff.
  - exists rest. now rewrite <- Eb.
Qed.

Lemma version_search_Some (out v : text) :
  version_search sp out = Some v ->
  v <> [] /\ Forall (fun c => is_space sp c = false) v
  /\ exists a b, out = a ++ of_string "Version: " ++ v ++ b.
Proof.
  induction out as [|c out IH]; [discriminate|].
  cbn [version_search]. destruct (version_here sp (c :: out)) as [v0|] eqn:E.
  - intros H. injection H as ->.
    apply version_here_Some in E as (Hne & Hf & b & E).
    repeat split; try assumption. exists [], b. exact E.
  - intros H. destruct (IH H) as (Hne & Hf & a & b & ->).
    repeat split; try assumption. now exists (c :: a), b.
Qed.

End ScriptFacts.

Section LoopFacts.

Variable sp : char -> bool.
Variable pip : text -> outcome text.

Abbreviation check := (check_packages sp pip).

(** The lines printed so far have no effect on what is returned. *)
Lemma check_result_printed (packages : list text) :
  forall installed pr pr',
    fst (check packages installed pr) = fst (check packages installed pr').
Proof.
  induction packages as [|package rest IH]; intros installed pr pr';
    [reflexivity|].
  cbn [check_packages].
  destruct (package_name_of package) as [name|]; [|apply IH].
  destruct (pip name) as [output|e].
  - destruct (version_search sp output); apply IH.
  - destruct (raised_class e); try reflexivity. apply IH.
Qed.

(** A failure of [pip] other than a non-zero exit ends the loop with an
    empty dictionary. *)
Lemma check_abort (package name : text) (e : raised) (packages : list text) :
  (forall n e', pip n = Raise e' -> raised_class e' <> NotException) ->
  package_name_of package = Some name ->
  pip name = Raise e ->
  raised_class e <> CalledProcessError ->
  In package packages ->
  forall installed pr, fst (check packages installed pr) = Ok [].
Proof.
  intros Hint Hname Hpip Hclass.
  induction packages as [|p rest IH]; intros Hin installed pr; [destruct Hin|].
  cbn [check_packages].
  destruct (package_name_of p) as [n|] eqn:Hn.
  - destruct (pip n) as [output|e'] eqn:Hp.
    + destruct Hin as [-> | Hin]; [congruence|].
      destruct (version_search sp output); now apply IH.
    + destruct (raised_class e') eqn:Hc; try reflexivity.
      * destruct Hin as [-> | Hin]; [congruence | now apply IH].
      * exfalso. exact (Hint n e' Hp Hc).
  - destruct Hin as [-> | Hin]; [congruence | now apply IH].
Qed.

(** What the loop keeps true of the dictionary. *)
Lemma check_entries (all : list text) (packages : list text) :
  incl packages all ->
  forall installed pr d,
    NoDup (map fst installed) ->
    (forall k v, In (k, v) installed ->
       (exists package, In package all /\ package_name_of package = Some k)
       /\ exists output, pip k = Ok output /\ version_search sp output = Some v) ->
    fst (check packages installed pr) = Ok d ->
    NoDup (map fst d)
    /\ forall k v, In (k, v) d ->
         (exists package, In package all /\ package_name_of package = Some k)
         /\ exists output, pip k = Ok output /\ version_search sp output = Some v.
Proof.
  induction packages as [|p rest IH]; intros Hincl installed pr d Hnd Hgood.
  - cbn. intros H. injection H as <-. now split.
  - assert (Hrest : incl rest all) by (intros x Hx; apply Hincl; now right).
    assert (Hp : In p all) by (apply Hincl; now left).
    cbn [check_packages].
    destruct (package_name_of p) as [name|] eqn:Hn; [|now apply IH].
    destruct (pip name) as [output|e] eqn:Hpip.
    + destruct (version_search sp output) as [version|] eqn:Hv; [|now apply IH].
      apply IH; [assumption | now apply dict_set_NoDup|].
      intros k v Hin. apply dict_set_In in Hin as [E | Hin]; [|now apply Hgood].
      injection E as -> ->. split; [now exists p | now exists output].
    + destruct (raised_class e); try (now apply IH);
        try (cbn; intros H; injection H as <-; split;
             [constructor | intros k v []]).
      discriminate.
Qed.

End LoopFacts.

Section StripFacts.

Variable sp : char -> bool.

Lemma name_char_not_space (c : char) :
  name_char c = true -> is_space sp c = false.
Proof.
  unfold name_char, is_space, ascii_space, Re.in_range. intros H.
  repeat (apply orb_true_iff in H as [H | H]);
    try (apply andb_true_iff in H as [H1 H2]; apply N.leb_le in H1, H2);
    try apply N.eqb_eq in H;
    (replace (N.ltb c 128) with true by (symmetry; apply N.ltb_lt; lia));
    repeat (apply orb_false_iff; split);
    try (apply andb_false_iff;
         first [left; apply N.leb_gt; lia | right; apply N.leb_gt; lia]);
    apply N.eqb_neq; lia.
Qed.

Lemma lstrip_all_space (s : text) :
  Forall (fun c => is_space sp c = true) s -> lstrip sp s = [].
Proof.
  induction 1 as [|c s Hc Hs IH]; cbn; [reflexivity|]. now rewrite Hc.
Qed.

Lemma strip_all_space (s : text) :
  Forall (fun c => is_space sp c = true) s -> strip sp s = [].
Proof.
  intros H. unfold strip. now rewrite (lstrip_all_space H).
Qed.

Lemma lstrip_app (l rest : text) :
  (forall c rest', rest = c :: rest' -> is_space sp c = false) ->
  lstrip sp (l ++ rest) = lstrip sp l ++ rest.
Proof.
  intros Hrest. induction l as [|c l IH]; cbn.
  - destruct rest as [|c rest']; [reflexivity|]. cbn.
    now rewrite (Hrest c rest' eq_refl).
  - destruct (is_space sp c); [exact IH | reflexivity].
Qed.

Lemma lstrip_suffix (l : text) : exists dropped, l = dropped ++ lstrip sp l.
Proof.
  induction l as [|c l (d & E)]; cbn; [now exists []|].
  destruct (is_space sp c); [|now exists []].
  exists (c :: d). cbn. now rewrite <- E.
Qed.

(** Stripping a line that begins with a package name keeps the name and a
    prefix of what follows it. *)
Lemma strip_name (name spec : text) :
  name <> [] -> Forall (fun c => name_char c = true) name ->
  exists spec' dropped,
    strip sp (name ++ spec) = name ++ spec' /\ spec = spec' ++ dropped.
Proof.
  intros Hne Hname. unfold strip.
  assert (Hhead : lstrip sp (name ++ spec) = name ++ spec).
  { destruct name as [|c name]; [congruence|]. cbn.
    inversion Hname; subst. now rewrite (name_char_not_space _ H1). }
  rewrite Hhead, rev_app_distr, lstrip_app.
  - rewrite rev_app_distr, rev_involutive.
    destruct (lstrip_suffix (rev spec)) as (d & E).
    exists (rev (lstrip sp (rev spec))), (rev d). split; [reflexivity|].
    rewrite <- rev_app_distr, <- E. now rewrite rev_involutive.
  - intros c rest' E. apply name_char_not_space.
    assert (Hin : In c (rev name)) by (rewrite E; now left).
    apply in_rev in Hin. rewrite Forall_forall in Hname. now apply Hname.
Qed.

Lemma package_name_of_line (name spec : text) :
  name <> [] -> Forall (fun c => name_char c = true) name ->
  (forall c spec', spec = c :: spec' -> name_char c = false) ->
  package_name_of (strip sp (name ++ spec)) = Some name
  /\ is_package_line sp (name ++ spec) = true.
Proof.
  intros Hne Hname Hspec.
  destruct (strip_name spec Hne Hname) as (spec' & d & E & Es).
  assert (Hn : package_name_of (name ++ spec') = Some name).
  { unfold package_name_of. rewrite take_while_all; try assumption.
    - destruct name; [congruence | reflexivity].
    - intros c b' Eb. subst spec'. now apply (Hspec c (b' ++ d)). }
  split; [now rewrite E|].
  unfold is_package_line. rewrite E.
  destruct name as [|c name]; [congruence|]. cbn [app].
  change (starts_with (of_string "#") (c :: name ++ spec))
    with (N.eqb 35 c && true).
  inversion Hname; subst.
  destruct (N.eqb 35 c) eqn:Ec; [|reflexivity].
  apply N.eqb_eq in Ec. subst c. discriminate.
Qed.

(** *** The version in the output of [pip show] *)

Lemma starts_with_name (p s rest : text) :
  Forall (fun c => name_char c = true) s ->
  p <> [] -> ~ In 10%N p ->
  (exists c, In c p /\ name_char c = false) ->
  starts_with p (s ++ 10%N :: rest) = false.
Proof.
  intros Hs. revert p. induction Hs as [|a s Ha Hs IH]; intros p Hne Hnl Hbad.
  - destruct p as [|c p]; [congruence|]. cbn. unfold char_eqb.
    destruct (N.eqb c 10) eqn:E; [|reflexivity].
    apply N.eqb_eq in E. subst c. exfalso. apply Hnl. now left.
  - destruct p as [|c p]; [congruence|]. cbn. unfold char_eqb.
    destruct (N.eqb c a) eqn:E; [|reflexivity].
    apply N.eqb_eq in E. subst c. cbn. apply IH.
    + destruct Hbad as (c & [<- | Hc] & Hf); [congruence|].
      destruct p; [destruct Hc | discriminate].
    + intros H. apply Hnl. now right.
    + destruct Hbad as (c & [<- | Hc] & Hf); [congruence | now exists c].
Qed.

Lemma version_search_skip_name (s rest : text) :
  Forall (fun c => name_char c = true) s ->
  version_search sp (s ++ 10%N :: rest) = version_search sp rest.
Proof.
  intros Hs. induction Hs as [|a s Ha Hs IH].
  - reflexivity.
  - cbn [app version_search]. unfold version_here.
    change (a :: s ++ 10%N :: rest) with ((a :: s) ++ 10%N :: rest).
    rewrite starts_with_name; [exact IH | now constructor | discriminate | |].
    + vm_compute. intuition discriminate.
    + exists 32%N. split; [vm_compute; tauto | reflexivity].
Qed.

Lemma version_search_skip (c : char) (rest : text) :
  c <> 86%N -> version_search sp (c :: rest) = version_search sp rest.
Proof.
  intros Hc. cbn [version_search]. unfold version_here.
  change (starts_with (of_string "Version: ") (c :: rest))
    with (N.eqb 86 c && starts_with (of_string "ersion: ") rest).
  replace (N.eqb 86 c) with false; [reflexivity|].
  symmetry. apply N.eqb_neq. congruence.
Qed.

(** [re.search] finds the version in what [pip show] prints. *)
Lemma version_search_pip_output (name version rest : text) :
  Forall (fun c => name_char c = true) name ->
  version <> [] -> Forall (fun c => is_space sp c = false) version ->
  version_search sp
    (of_string "Name: " ++ name ++ nl ++ of_string "Version: " ++ version
     ++ nl ++ rest)
  = Some version.
Proof.
  intros Hname Hne Hv.
  change (of_string "Name: " ++ name ++ nl ++ of_string "Version: " ++ version
          ++ nl ++ rest)
    with (78%N :: 97%N :: 109%N :: 101%N :: 58%N :: 32%N
          :: name ++ 10%N :: (of_string "Version: " ++ version ++ nl ++ rest)).
  rewrite !version_search_skip by discriminate.
  rewrite (version_search_skip_name _ Hname).
  change (of_string "Version: " ++ version ++ nl ++ rest)
    with (86%N :: (of_string "ersion: " ++ version ++ nl ++ rest)).
  cbn [version_search].
  change (86%N :: (of_string "ersion: " ++ version ++ nl ++ rest))
    with (of_string "Version: " ++ version ++ nl ++ rest).
  unfold version_here.
  replace (starts_with (of_string "Version: ")
             (of_string "Version: " ++ version ++ nl ++ rest)) with true
    by (symmetry; apply starts_with_app; now eexists).
  change (skipn 9 (of_string "Version: " ++ version ++ nl ++ rest))
    with (version ++ nl ++ rest).
  rewrite take_while_all.
  - destruct version; [congruence | reflexivity].
  - eapply Forall_impl; [|exact Hv]. intros a Ha. now rewrite Ha.
  - intros c b' E. injection E as <- _. reflexivity.
Qed.

End StripFacts.

Lemma packages_of_app (sp : char -> bool) (l1 l2 : list text) :
  packages_of sp (l1 ++ l2) = packages_of sp l1 ++ packages_of sp l2.
Proof. unfold packages_of. now rewrite filter_app, map_app. Qed.

Lemma package_of_line (sp : char -> bool) (line : text) (lines : list text) :
  In line lines -> is_package_line sp line = true ->
  In (strip sp line) (packages_of sp lines).
Proof.
  intros Hin Hp. unfold packages_of. apply in_map. apply filter_In. now split.
Qed.

Lemma line_of_package (sp : char -> bool) (package : text) (lines : list text) :
  In package (packages_of sp lines) ->
  exists line, In line lines /\ is_package_line sp line = true
               /\ package = strip sp line.
Proof.
  unfold packages_of. intros H. apply in_map_iff in H as (line & <- & H).
  apply filter_In in H as [Hin Hp]. now exists line.
Qed.

(** A package the loop passes over has no effect on the dictionary. *)
Lemma check_skip (sp : char -> bool) (pip : text -> outcome text)
    (package : text) (post : list text) :
  (package_name_of package = None
   \/ exists name, package_name_of package = Some name
        /\ ((exists e, pip name = Raise e /\ raised_class e = CalledProcessError)
            \/ exists output, pip name = Ok output
                 /\ version_search sp output = None)) ->
  forall pre installed pr,
    fst (check_packages sp pip (pre ++ package :: post) installed pr)
    = fst (check_packages sp pip (pre ++ post) installed pr).
Proof.
  intros Hskip. induction pre as [|p pre IH]; intros installed pr.
  - cbn [app check_packages].
    destruct Hskip as [-> | (name & -> & [(e & -> & ->) | (output & -> & ->)])];
      apply check_result_printed.
  - cbn [app check_packages].
    destruct (package_name_of p) as [n|]; [|apply IH].
    destruct (pip n) as [output|e].
    + destruct (version_search sp output); apply IH.
    + destruct (raised_class e); try reflexivity. apply IH.
Qed.

(** X21: the function returns the empty dictionary when the requirements
    file cannot be read, and when [pip] fails for some package with an
    [Exception] other than a non-zero exit (as when the command is missing):
    what was found before is discarded. *)
Theorem errors_give_empty_dict (sp : char -> bool) (pip : text -> outcome text)
    (requirements_file : text) :
  (forall e, raised_class e <> NotException ->
     fst (get_installed_package_versions sp pip requirements_file (Raise e))
     = Ok [])
  /\ forall lines line name e,
       (forall n e', pip n = Raise e' -> raised_class e' <> NotException) ->
       In line lines -> is_package_line sp line = true ->
       package_name_of (strip sp line) = Some name ->
       pip name = Raise e -> raised_class e <> CalledProcessError ->
       fst (get_installed_package_versions sp pip requirements_file (Ok lines))
       = Ok [].
Proof.
  split.
  - intros e He. cbn. destruct (raised_class e); try reflexivity. congruence.
  - intros lines line name e Hint Hin Hline Hname Hpip Hclass. cbn.
    eapply check_abort; try eassumption. now apply package_of_line.
Qed.

Lemma errors_give_empty_dict_witness :
  In (of_string "  streamlit>=1.40" ++ nl) sample_requirements
  /\ no_pip (of_string "streamlit")
     = Raise (mkRaised FileNotFoundError
                (of_string "[Errno 2] No such file or directory: 'pip'"))
  /\ fst (get_installed_package_versions ascii_only no_pip
            (of_string "requirements.txt") (Ok sample_requirements))
     = Ok [].
Proof.
  split; [cbn; tauto|]. split; [reflexivity|].
  apply (proj2 (errors_give_empty_dict ascii_only no_pip
                  (of_string "requirements.txt"))
           sample_requirements (of_string "  streamlit>=1.40" ++ nl)
           (of_string "streamlit")
           (mkRaised FileNotFoundError
              (of_string "[Errno 2] No such file or directory: 'pip'"))).
  - intros n e' H. unfold no_pip in H.
    destruct (text_eqb n (of_string "agno")); [discriminate|].
    injection H as <-. discriminate.
  - cbn; tauto.
  - reflexivity.
  - reflexivity.
  - reflexivity.
  - discriminate.
Defined.

(** X22: in the dictionary the function returns no key occurs twice; every
    key is the name parsed from a line of the file that is neither blank nor
    a comment, a non-empty string of letters, digits, [_] and [-]; and its
    value is the version found in what [pip show] printed for that name, a
    non-empty string without white space. *)
Theorem result_entries_come_from_pip (sp : char -> bool)
    (pip : text -> outcome text) (requirements_file : text)
    (lines : list text) (d : dict text) :
  fst (get_installed_package_versions sp pip requirements_file (Ok lines))
  = Ok d ->
  NoDup (map fst d)
  /\ forall k v, In (k, v) d ->
       (exists line, In line lines /\ is_package_line sp line = true
                     /\ package_name_of (strip sp line) = Some k)
       /\ (exists output, pip k = Ok output
                          /\ version_search sp output = Some v)
       /\ k <> [] /\ Forall (fun c => name_char c = true) k
       /\ v <> [] /\ Forall (fun c => is_space sp c = false) v.
Proof.
  cbn. intros H.
  destruct (@check_entries sp pip (packages_of sp lines) (packages_of sp lines)
              (incl_refl _) [] [] d (NoDup_nil _)
              (fun k v (F : In (k, v) []) => match F with end) H)
    as [Hnd Hgood].
  split; [exact Hnd|]. intros k v Hin.
  destruct (Hgood k v Hin) as [(package & Hp & Hn) (output & Hpip & Hv)].
  apply line_of_package in Hp as (line & Hl & Hpl & ->).
  destruct (package_name_of_Some _ Hn) as (Hk1 & Hk2 & _).
  destruct (version_search_Some sp _ Hv) as (Hv1 & Hv2 & _).
  split; [now exists line|]. split; [now exists output|].
  repeat split; assumption.
Qed.

Lemma result_entries_come_from_pip_witness :
  NoDup (map fst [(of_string "agno", of_string "1.2.6");
                  (of_string "streamlit", of_string "1.44.0")])
  /\ forall k v,
       In (k, v) [(of_string "agno", of_string "1.2.6");
                  (of_string "streamlit", of_string "1.44.0")] ->
       exists output, sample_pip k = Ok output
                      /\ version_search ascii_only output = Some v.
Proof.
  destruct (result_entries_come_from_pip ascii_only sample_pip
              (of_string "requirements.txt") sample_requirements
              (d := [(of_string "agno", of_string "1.2.6");
                     (of_string "streamlit", of_string "1.44.0")])
              eq_refl) as [H1 H2].
  split; [exact H1|]. intros k v Hin. exact (proj1 (proj2 (H2 k v Hin))).
Defined.

(** X23: a line of white space only, and a line whose first character is
    [#], change neither the dictionary nor what is printed. *)
Theorem blank_and_comment_lines_ignored (sp : char -> bool)
    (pip : text -> outcome text) (requirements_file : text)
    (before after : list text) (line : text) :
  (Forall (fun c => is_space sp c = true) line
   \/ exists rest, line = 35%N :: rest) ->
  get_installed_package_versions sp pip requirements_file
    (Ok (before ++ line :: after))
  = get_installed_package_versions sp pip requirements_file
      (Ok (before ++ after)).
Proof.
  intros Hline.
  assert (Hp : is_package_line sp line = false).
  { unfold is_package_line. destruct Hline as [Hs | (rest & ->)].
    - now rewrite (@strip_all_space sp line Hs).
    - now destruct (strip sp (35%N :: rest)). }
  cbn. rewrite !packages_of_app.
  unfold packages_of at 2. cbn [filter]. now rewrite Hp.
Qed.

Lemma blank_and_comment_lines_ignored_witness :
  get_installed_package_versions ascii_only sample_pip
    (of_string "requirements.txt")
    (Ok ([of_string "agno==1.2.6" ++ nl] ++ (of_string "# pinned" ++ nl)
         :: [of_string "streamlit" ++ nl]))
  = get_installed_package_versions ascii_only sample_pip
      (of_string "requirements.txt")
      (Ok ([of_string "agno==1.2.6" ++ nl] ++ [of_string "streamlit" ++ nl])).
Proof.
  apply (blank_and_comment_lines_ignored ascii_only sample_pip
           (of_string "requirements.txt")).
  right. now exists (of_string " pinned" ++ nl).
Defined.

(** X24: a requirement whose name cannot be parsed, for which [pip show]
    exits with an error, or whose output holds no version, is passed over:
    the dictionary returned is the one the file gives without that line. *)
Theorem skipped_requirement_has_no_effect (sp : char -> bool)
    (pip : text -> outcome text) (requirements_file : text)
    (before after : list text) (line : text) :
  is_package_line sp line = true ->
  (package_name_of (strip sp line) = None
   \/ exists name, package_name_of (strip sp line) = Some name
        /\ ((exists e, pip name = Raise e /\ raised_class e = CalledProcessError)
            \/ exists output, pip name = Ok output
                 /\ version_search sp output = None)) ->
  fst (get_installed_package_versions sp pip requirements_file
         (Ok (before ++ line :: after)))
  = fst (get_installed_package_versions sp pip requirements_file
           (Ok (before ++ after))).
Proof.
  intros Hline Hskip. cbn. rewrite !packages_of_app.
  unfold packages_of at 2. cbn [filter]. rewrite Hline. cbn [map].
  now apply check_skip.
Qed.

Lemma skipped_requirement_has_no_effect_witness :
  fst (get_installed_package_versions ascii_only sample_pip
         (of_string "requirements.txt")
         (Ok ([of_string "agno==1.2.6" ++ nl]
              ++ (of_string "unknown-package" ++ nl)
              :: [of_string "streamlit" ++ nl])))
  = fst (get_installed_package_versions ascii_only sample_pip
           (of_string "requirements.txt")
           (Ok ([of_string "agno==1.2.6" ++ nl] ++ [of_string "streamlit" ++ nl]))).
Proof.
  apply (skipped_requirement_has_no_effect ascii_only sample_pip
           (of_string "requirements.txt")); [reflexivity|].
  right. exists (of_string "unknown-package"). split; [reflexivity|].
  left. eexists. split; reflexivity.
Defined.

(** X25: for a file with one requirement, a package name followed by
    nothing or by a version specifier, and a [pip show] that prints the name
    line and then the version line, the function returns the dictionary that
    maps the name to that version, and prints nothing. *)
Theorem one_requirement_round_trip (sp : char -> bool)
    (pip : text -> outcome text) (requirements_file : text)
    (name spec version rest : text) :
  name <> [] -> Forall (fun c => name_char c = true) name ->
  (forall c spec', spec = c :: spec' -> name_char c = false) ->
  version <> [] -> Forall (fun c => is_space sp c = false) version ->
  pip name
  = Ok (of_string "Name: " ++ name ++ nl ++ of_string "Version: " ++ version
        ++ nl ++ rest) ->
  get_installed_package_versions sp pip requirements_file (Ok [name ++ spec])
  = (Ok [(name, version)], []).
Proof.
  intros Hne Hname Hspec Hv1 Hv2 Hpip.
  destruct (@package_name_of_line sp name spec Hne Hname Hspec) as [Hn Hl].
  cbn [get_installed_package_versions]. unfold packages_of. cbn [filter].
  rewrite Hl. cbn [map check_packages]. rewrite Hn, Hpip.
  now rewrite (@version_search_pip_output sp name version rest Hname Hv1 Hv2).
Qed.

Lemma one_requirement_round_trip_witness :
  get_installed_package_versions ascii_only sample_pip
    (of_string "requirements.txt") (Ok [of_string "agno" ++ of_string ">=1.2" ++ nl])
  = (Ok [(of_string "agno", of_string "1.2.6")], []).
Proof.
  apply (@one_requirement_round_trip ascii_only sample_pip
           (of_string "requirements.txt")
           (of_string "agno") (of_string ">=1.2" ++ nl)
           (of_string "1.2.6") (of_string "Summary: agents" ++ nl)).
  - discriminate.
  - repeat constructor.
  - intros c spec' E. injection E as <- _. reflexivity.
  - discriminate.
  - repeat constructor.
  - reflexivity.
Defined.

End CheckVersionsFacts.

(** ** The interaction of [finance_agents.py] *)

Module FinanceAgentsFacts.

Section Facts.

Variables Row DataFrame Figure : Type.
Variable svc : services Row DataFrame Figure.

Lemma answered (prompt : text) (resp : response) (full : text)
    (st : state Figure) :
  agent_team_run svc prompt = Returns resp ->
  response_content resp = Some full ->
  FinanceAgents.handle_prompt svc (Returns tt) prompt st
  = (Returns tt,
     mkState
       (session_messages st
        ++ [mkMessage User (Some prompt); mkMessage Assistant (Some full)])
       (ContainerMarkdown Figure (Some full)
        :: stream_events Figure full
        ++ AgentRun Figure prompt :: prompt_events Figure prompt ++ trace st)
       (Some full) (potential_ticker_for_chart st)).
Proof.
  intros Hrun Hc.
  unfold FinanceAgents.handle_prompt, FinanceAgents.agent_body, call, lift.
  unfold bind at 1 2 3 4 5 6 7 8 9. unfold try_except_Exception.
  unfold bind at 1 2.
  unfold append_message at 1, emit at 1 2 3 4 5, set_full_response_content at 1.
  cbn [session_messages trace full_response_content potential_ticker_for_chart].
  rewrite Hrun, Hc. unfold bind at 1. rewrite stream_run.
  unfold bind, emit, set_full_response_content, get_full_response_content,
    append_message, log_events, prompt_events.
  cbn [session_messages trace full_response_content potential_ticker_for_chart].
  rewrite <- !app_assoc. reflexivity.
Qed.

Lemma failed (prompt : text) (e : py_exn) (st : state Figure) :
  (agent_team_run svc prompt = Raises e /\ exn_is_Exception e = true)
  \/ (exists resp, agent_team_run svc prompt = Returns resp
        /\ response_content resp = None /\ e = len_of_None) ->
  FinanceAgents.handle_prompt svc (Returns tt) prompt st
  = (Returns tt,
     mkState
       (session_messages st
        ++ [mkMessage User (Some prompt);
            mkMessage Assistant (Some (FinanceAgents.error_message e))])
       (ContainerMarkdown Figure (Some (FinanceAgents.error_message e))
        :: AgentRun Figure prompt :: prompt_events Figure prompt ++ trace st)
       (Some (FinanceAgents.error_message e)) (potential_ticker_for_chart st)).
Proof.
  intros H.
  unfold FinanceAgents.handle_prompt, FinanceAgents.agent_body,
    FinanceAgents.agent_failed, call, lift, try_except_Exception,
    bind, emit, append_message, set_full_response_content,
    get_full_response_content, raise, prompt_events.
  cbn [session_messages trace full_response_content potential_ticker_for_chart].
  destruct H as [[-> He] | (resp & -> & Hc & ->)].
  - rewrite He.
    cbn [session_messages trace full_response_content
         potential_ticker_for_chart app].
    now rewrite <- app_assoc.
  - rewrite Hc.
    cbn [session_messages trace full_response_content exn_is_Exception
         len_of_None potential_ticker_for_chart app].
    now rewrite <- app_assoc.
Qed.

End Facts.

(** X26: when the agent answers with a text, the interaction of
    [finance_agents.py] and the one of [updated_fin_agents.py] record the
    same two messages and give the response placeholder the same frames; the
    updated script only adds the search for a ticker and the chart. *)
Theorem same_response_as_updated_app (u : char -> bool)
    (Row DataFrame Figure : Type) (svc : services Row DataFrame Figure)
    (prompt : text) (resp : response) (full : text) (st : state Figure) :
  agent_team_run svc prompt = Returns resp ->
  response_content resp = Some full ->
  let old := snd (FinanceAgents.handle_prompt svc (Returns tt) prompt st) in
  let new := snd (handle_prompt u svc prompt st) in
  session_messages old
  = session_messages st
    ++ [mkMessage User (Some prompt); mkMessage Assistant (Some full)]
  /\ session_messages new = session_messages old
  /\ shown (trace new) = shown (trace old).
Proof.
  intros Hrun Hc. cbv zeta.
  rewrite (answered svc prompt st Hrun Hc).
  rewrite (handle_prompt_answered_trace u svc prompt st Hrun Hc).
  destruct (find_ticker_in_response u full) as [[|c ticker]|].
  - cbn. repeat split; reflexivity.
  - cbn [maybeTriggerChart].
    match goal with
    | |- context [display_stock_chart svc ?tk ?st0] =>
        destruct (display_stock_chart_shape svc tk st0)
          as [(fb & Hfb & E) | (e & _ & E)]; rewrite E
    end.
    + destruct fb; try discriminate Hfb; cbn; repeat split; reflexivity.
    + cbn. repeat split; reflexivity.
  - cbn. repeat split; reflexivity.
Qed.

Lemma same_response_as_updated_app_witness :
  session_messages
    (snd (handle_prompt ascii_only plotting_services prompt1 initial_state))
  = session_messages
      (snd (FinanceAgents.handle_prompt plotting_services (Returns tt) prompt1
              initial_state)).
Proof.
  exact (proj1 (proj2 (same_response_as_updated_app ascii_only plotting_services
                         prompt1 initial_state
                         (resp := RunResponse (Some scenario1))
                         (full := scenario1) eq_refl eq_refl))).
Defined.

(** X27: in [finance_agents.py] an [Exception] raised by the agent run is
    caught: the interaction returns, and the assistant's message, which is
    also what the placeholder shows, is the warning sign followed by
    [Error:] and the text of the exception. *)
Theorem agent_failure_recorded_as_error (Row DataFrame Figure : Type)
    (svc : services Row DataFrame Figure) (prompt : text) (e : py_exn)
    (st : state Figure) :
  agent_team_run svc prompt = Raises e ->
  exn_is_Exception e = true ->
  let out := FinanceAgents.handle_prompt svc (Returns tt) prompt st in
  fst out = Returns tt
  /\ session_messages (snd out)
     = session_messages st
       ++ [mkMessage User (Some prompt);
           mkMessage Assistant
             (Some (warning_sign ++ of_string " Error: " ++ exn_str e))]
  /\ last_shown (trace (snd out))
     = Some (Some (warning_sign ++ of_string " Error: " ++ exn_str e)).
Proof.
  intros Hrun He. cbv zeta.
  rewrite (failed svc prompt (e := e) st) by (left; split; assumption).
  cbn. repeat split; reflexivity.
Qed.

Lemma agent_failure_recorded_as_error_witness :
  session_messages
    (snd (FinanceAgents.handle_prompt failing_agent_services (Returns tt)
            prompt1 initial_state))
  = [mkMessage User (Some prompt1);
     mkMessage Assistant
       (Some (warning_sign ++ of_string " Error: " ++ exn_str quota_error))].
Proof.
  exact (proj1 (proj2 (agent_failure_recorded_as_error failing_agent_services
                         prompt1 initial_state (e := quota_error)
                         eq_refl eq_refl))).
Defined.

(** X28: in [finance_agents.py] the agents are constructed for every
    prompt, outside the [try]: when the construction raises, whatever the
    class of the exception, it leaves the interaction after the user's
    message was recorded and shown; the agent is not called and no assistant
    message is recorded. *)
Theorem construction_failure_propagates (Row DataFrame Figure : Type)
    (svc : services Row DataFrame Figure) (prompt : text) (e : py_exn)
    (st : state Figure) :
  FinanceAgents.handle_prompt svc (Raises e) prompt st
  = (Raises e,
     mkState (session_messages st ++ [mkMessage User (Some prompt)])
             (StMarkdown Figure prompt :: ChatMessage Figure User :: trace st)
             (full_response_content st) (potential_ticker_for_chart st)).
Proof. reflexivity. Qed.

End FinanceAgentsFacts.
